(** * validateJSON: the recursive schema validator of [validateJSON/__init__.py]

    A shallow embedding of [JSONValidator.validate_expected],
    [JSONValidator.validate_optional] and [JSONValidator.validate],
    together with the properties of the validation engine.

    Python values are an inductive type; a call of one of the three methods is
    a computation that appends the records it hands to [logger.error] to a log
    and either returns a value or raises [KeyError] / [TypeError]. *)

From Stdlib Require Import List String ZArith Bool.
From Stdlib Require Import Floats.SpecFloat.
From Stdlib Require Import Sorting.Permutation.
Import ListNotations.
Local Open Scope string_scope.
Local Open Scope list_scope.
Local Open Scope Z_scope.

#[local] Set Warnings "-register-all".
#[local] Unset Elimination Schemes.

(** ** Python values *)

(** The values a parsed JSON document is made of.  A [dict] keeps its items in
    insertion order, so it is an association list; its keys are strings and
    are pairwise distinct.  Floats are binary64 values in the canonical form
    of [SpecFloat]. *)
Inductive value : Type :=
| VNone
| VBool (b : bool)
| VInt (n : Z)
| VFloat (f : spec_float)
| VStr (s : string)
| VList (l : list value)
| VDict (d : list (string * value)).

Definition dict : Type := list (string * value).

(** The type objects a schema may put under ["param_type"]:
    [type(None)], [bool], [int], [float], [str], [list], [dict]. *)
Inductive pytype : Type :=
| TNone | TBool | TInt | TFloat | TStr | TList | TDict.

Definition pytype_eqb (a b : pytype) : bool :=
  match a, b with
  | TNone, TNone | TBool, TBool | TInt, TInt | TFloat, TFloat
  | TStr, TStr | TList, TList | TDict, TDict => true
  | _, _ => false
  end.

(** [type(v)] *)
Definition type_of (v : value) : pytype :=
  match v with
  | VNone => TNone
  | VBool _ => TBool
  | VInt _ => TInt
  | VFloat _ => TFloat
  | VStr _ => TStr
  | VList _ => TList
  | VDict _ => TDict
  end.

(** [isinstance(v, t)]: [bool] is a subclass of [int], and nothing else in
    the list above is a subclass of anything else in it. *)
Definition isinstance (v : value) (t : pytype) : bool :=
  pytype_eqb (type_of v) t ||
  match v, t with
  | VBool _, TInt => true
  | _, _ => false
  end.

(** [d.get(k)]: the item stored under [k], if any. *)
Fixpoint lookup {A : Type} (k : string) (d : list (string * A)) : option A :=
  match d with
  | [] => None
  | (k', v) :: d' => if String.eqb k k' then Some v else lookup k d'
  end.

(** [k in d] for a dict [d]. *)
Definition contains {A : Type} (k : string) (d : list (string * A)) : bool :=
  match lookup k d with
  | Some _ => true
  | None => false
  end.

(** [list(d)]: the keys of a dict. *)
Definition keys {A : Type} (d : list (string * A)) : list string :=
  map fst d.

(** *** Equality of values, [a == b]

    [in] on a list and the subscript of a dict take an object that is
    identical to the one looked for as equal to it without calling [==].
    The data and the schema are built apart and share no object, and an
    object equals itself unless a NaN is involved, so [==] alone decides. *)

Definition Z_of_bool (b : bool) : Z := if b then 1 else 0.

(** An [int] equals a [float] when they denote the same number. *)
Definition int_eq_float (n : Z) (f : spec_float) : bool :=
  match f with
  | S754_zero _ => n =? 0
  | S754_finite s m e =>
      let mz := if s then Z.neg m else Z.pos m in
      if 0 <=? e then n =? mz * 2 ^ e else n * 2 ^ (- e) =? mz
  | S754_infinity _ | S754_nan => false
  end.

Fixpoint py_eq (a b : value) {struct a} : bool :=
  match a, b with
  | VNone, VNone => true
  | VBool x, VBool y => Bool.eqb x y
  | VBool x, VInt n | VInt n, VBool x => Z_of_bool x =? n
  | VBool x, VFloat f | VFloat f, VBool x => int_eq_float (Z_of_bool x) f
  | VInt n, VInt m => n =? m
  | VInt n, VFloat f | VFloat f, VInt n => int_eq_float n f
  | VFloat f, VFloat g => SFeqb f g
  | VStr s, VStr t => String.eqb s t
  | VList l1, VList l2 =>
      (fix go (l1 l2 : list value) {struct l1} : bool :=
         match l1, l2 with
         | [], [] => true
         | x :: xs, y :: ys => py_eq x y && go xs ys
         | _, _ => false
         end) l1 l2
  | VDict d1, VDict d2 =>
      Nat.eqb (List.length d1) (List.length d2) &&
      (fix go (d : list (string * value)) : bool :=
         match d with
         | [] => true
         | (k, x) :: d' =>
             match lookup k d2 with
             | Some y => py_eq x y
             | None => false
             end && go d'
         end) d1
  | _, _ => false
  end.

(** [v in l] for a list [l]: some element equals [v]. *)
Definition py_in (v : value) (l : list value) : bool :=
  existsb (fun x => py_eq x v) l.

(** Lists and dicts are unhashable; every other value can be a dict key. *)
Definition hashable (v : value) : bool :=
  match v with
  | VList _ | VDict _ => false
  | _ => true
  end.

(** ** The schema *)

(** One entry of an [expected_keys] or [optional_keys] list.  ["param_name"]
    and ["param_type"] are always there; the other entries of the descriptor
    dict may be missing, which [None] stands for. *)
Inductive descriptor : Type :=
  Descriptor {
    param_name : string;
    param_type : pytype;
    possible_values : option (list value);
    expected_keys : option (list descriptor);
    conditional_keys : option conditional;
    optional_keys : option (list descriptor) }
with conditional : Type :=
  Conditional {
    depends_on : string;
    dependence_info : list (value * branch) }
with branch : Type :=
  Branch {
    branch_expected_keys : option (list descriptor);
    branch_optional_keys : option (list descriptor) }.

#[local] Set Elimination Schemes.

(** ** Computations: a log of diagnostics and a result or an exception *)

(** The exceptions that the subscripts and calls of the three methods can
    raise.  A call is followed as long as the interpreter has stack left for
    it: the [RecursionError] of a schema nested deeper than the recursion
    limit allows is outside of the model, and no statement below is about
    it. *)
Inductive exn : Type := KeyError | TypeError.

Inductive outcome (A : Type) : Type :=
| Return (a : A)
| Raise (e : exn).
Arguments Return {A} a.
Arguments Raise {A} e.

(** The records passed to [logger.error], oldest first, and how the call
    ended. *)
Definition M (A : Type) : Type := (list string * outcome A)%type.

Definition ret {A : Type} (a : A) : M A := ([], Return a).

Definition raise {A : Type} (e : exn) : M A := ([], Raise e).

Definition bind {A B : Type} (m : M A) (f : A -> M B) : M B :=
  match m with
  | (l, Return a) => let (l', r) := f a in (l ++ l', r)
  | (l, Raise e) => (l, Raise e)
  end.

(** [logger.error(msg)] *)
Definition logger_error (msg : string) : M unit := ([msg], Return tt).

Notation "x <- m ;; k" := (bind m (fun x => k))
  (at level 61, m at next level, right associativity).
Notation "m ;; k" := (bind m (fun _ => k))
  (at level 61, right associativity).

(** [d[k]]: raises [KeyError] when [k] is missing. *)
Definition getitem (d : dict) (k : string) : M value :=
  match lookup k d with
  | Some v => ret v
  | None => raise KeyError
  end.

(** A value used as the [json_object] of a call.  The callers below only pass
    values that went through [isinstance(_, dict)]. *)
Definition as_dict (v : value) : M dict :=
  match v with
  | VDict d => ret d
  | _ => raise TypeError
  end.

(** A list comprehension whose element expression may raise. *)
Fixpoint mapM {A B : Type} (f : A -> M B) (l : list A) : M (list B) :=
  match l with
  | [] => ret []
  | x :: xs => y <- f x ;; ys <- mapM f xs ;; ret (y :: ys)
  end.

(** [all(l)] *)
Definition all (l : list bool) : bool := forallb (fun b => b) l.

(** ** The three methods of [JSONValidator]

    Both loops of the source run a body once per descriptor; the body either
    leaves the method with [return b] ([Some b] below) or falls through to
    the next descriptor ([None]).  After the last descriptor the method
    returns [True].

    The methods call themselves and each other on the sub-schemas stored
    inside a descriptor.  Each piece of code is first written with the
    methods it calls as parameters ([self.validate_expected] and so on); the
    recursion is then closed by structural recursion on the descriptor. *)

Definition for_each (body : dict -> descriptor -> M (option bool))
  : dict -> list descriptor -> M bool :=
  fix loop (json_object : dict) (descriptors : list descriptor) {struct descriptors} :=
    match descriptors with
    | [] => ret true
    | d :: rest =>
        r <- body json_object d ;;
        match r with
        | Some b => ret b
        | None => loop json_object rest
        end
    end.

(** *** [validate_optional] (lines 160-205) *)

(** Lines 180-204: the body of the loop, for one [optional_key]. *)
Definition optional_body
  (validate_optional_ : dict -> list descriptor -> M bool)
  (json_object : dict) (optional_key : descriptor) : M (option bool) :=
  if contains (param_name optional_key) json_object then
    v <- getitem json_object (param_name optional_key) ;;
    let correct_type := isinstance v (param_type optional_key) in
    if negb correct_type then
      logger_error "invalid optional parameter type" ;;
      ret (Some false)
    else if pytype_eqb (param_type optional_key) TDict then
      match optional_keys optional_key with
      | Some nested =>
          v' <- getitem json_object (param_name optional_key) ;;
          nested_object <- as_dict v' ;;
          b <- validate_optional_ nested_object nested ;;
          ret (Some b)
      | None => ret None
      end
    else ret None
  else ret None.

Fixpoint validate_optional_body (json_object : dict) (optional_key : descriptor)
  {struct optional_key} : M (option bool) :=
  optional_body (for_each validate_optional_body) json_object optional_key.

Definition validate_optional : dict -> list descriptor -> M bool :=
  for_each validate_optional_body.

(** *** [validate_expected] (lines 86-158) *)

(** Lines 124-130: the [possible_values] test of one [expected_key]. *)
Definition check_possible_values (json_object : dict) (expected_key : descriptor)
  : M (option bool) :=
  match possible_values expected_key with
  | Some values =>
      v <- getitem json_object (param_name expected_key) ;;
      if negb (py_in v values) then
        logger_error "incorrect expected parameter value" ;;
        ret (Some false)
      else ret None
  | None => ret None
  end.

Section ExpectedBody.

Variable validate_expected_ : dict -> list descriptor -> M bool.
Variable validate_ :
  dict -> list descriptor -> option (list descriptor) -> M bool.

(** Lines 134-143: the nested [expected_keys] of a dict-typed key. *)
Definition check_nested_expected (json_object : dict) (expected_key : descriptor)
  : M (option bool) :=
  match expected_keys expected_key with
  | Some nested =>
      v <- getitem json_object (param_name expected_key) ;;
      nested_object <- as_dict v ;;
      ok <- validate_expected_ nested_object nested ;;
      if negb ok then ret (Some false) else ret None
  | None => ret None
  end.

(** Lines 146-156: the [conditional_keys] of a dict-typed key.  The
    subscript [dependence_info[depends_on_val]] raises [TypeError] on an
    unhashable value and [KeyError] when no key of the dict equals it; the
    entry found must hold ["optional_keys"] and ["expected_keys"]. *)
Definition check_conditional (json_object : dict) (expected_key : descriptor)
  (ck : conditional) : M (option bool) :=
  depends_on_val <- getitem json_object (depends_on ck) ;;
  if negb (hashable depends_on_val) then raise TypeError
  else
    (fix subscript (items : list (value * branch)) : M (option bool) :=
       match items with
       | [] => raise KeyError
       | (k, info) :: items' =>
           if py_eq k depends_on_val then
             match branch_optional_keys info with
             | None => raise KeyError
             | Some nested_optional_keys =>
                 match branch_expected_keys info with
                 | None => raise KeyError
                 | Some nested_expected_keys =>
                     v <- getitem json_object (param_name expected_key) ;;
                     nested_object <- as_dict v ;;
                     b <- validate_ nested_object nested_expected_keys
                            (Some nested_optional_keys) ;;
                     ret (Some b)
                 end
             end
           else subscript items'
       end) (dependence_info ck).

(** Lines 121-156: the body of the loop, for one [expected_key]. *)
Definition expected_body (json_object : dict) (expected_key : descriptor)
  : M (option bool) :=
  r <- check_possible_values json_object expected_key ;;
  match r with
  | Some b => ret (Some b)
  | None =>
      if pytype_eqb (param_type expected_key) TDict then
        r' <- check_nested_expected json_object expected_key ;;
        match r' with
        | Some b => ret (Some b)
        | None =>
            match conditional_keys expected_key with
            | Some ck => check_conditional json_object expected_key ck
            | None => ret None
            end
        end
      else ret None
  end.

End ExpectedBody.

(** Lines 86-158, given the body of the loop. *)
Definition validate_expected_with (body : dict -> descriptor -> M (option bool))
  (json_object : dict) (expected_keys_ : list descriptor) : M bool :=
  let contains_params :=
    map (fun parameter => contains parameter json_object)
        (map param_name expected_keys_) in
  if negb (all contains_params) then
    logger_error "missing expected parameter" ;;
    ret false
  else
    correct_types <-
      mapM (fun expected_key =>
              v <- getitem json_object (param_name expected_key) ;;
              ret (isinstance v (param_type expected_key)))
           expected_keys_ ;;
    if negb (all correct_types) then
      logger_error "incorrect expected parameter type" ;;
      ret false
    else
      for_each body json_object expected_keys_.

(** *** [validate] (lines 207-250) *)

(** Lines 216-222: the names the schema allows. *)
Definition valid_keys (expected_keys_ : list descriptor)
  (optional_keys_ : option (list descriptor)) : list string :=
  match optional_keys_ with
  | Some optional_keys_ =>
      map param_name expected_keys_ ++ map param_name optional_keys_
  | None => map param_name expected_keys_
  end.

(** Lines 215-250, given [self.validate_expected]. *)
Definition validate_with
  (validate_expected_ : dict -> list descriptor -> M bool)
  (json_object : dict) (expected_keys_ : list descriptor)
  (optional_keys_ : option (list descriptor)) : M bool :=
  let contains_valid :=
    map (fun parameter =>
           existsb (String.eqb parameter) (valid_keys expected_keys_ optional_keys_))
        (keys json_object) in
  if negb (all contains_valid) then
    logger_error "invalid parameter detected" ;;
    ret false
  else
    ok <- validate_expected_ json_object expected_keys_ ;;
    if ok then
      match optional_keys_ with
      | Some optional_keys_ =>
          ok' <- validate_optional json_object optional_keys_ ;;
          if ok' then ret true else ret false
      | None => ret true
      end
    else ret false.

(** *** Closing the recursion *)

Fixpoint validate_expected_body (json_object : dict) (expected_key : descriptor)
  {struct expected_key} : M (option bool) :=
  expected_body
    (validate_expected_with validate_expected_body)
    (validate_with (validate_expected_with validate_expected_body))
    json_object expected_key.

Definition validate_expected : dict -> list descriptor -> M bool :=
  validate_expected_with validate_expected_body.

Definition validate
  : dict -> list descriptor -> option (list descriptor) -> M bool :=
  validate_with validate_expected.

(** ** Worked schemas *)

Module Samples.

(** [{"param_name": n, "param_type": t}] *)
Definition key (n : string) (t : pytype) : descriptor :=
  Descriptor n t None None None None.

Definition mode_key : descriptor :=
  Descriptor "mode" TStr (Some [VStr "a"; VStr "b"]) None None None.

Definition local_branch : branch :=
  Branch (Some [key "path" TStr]) (Some []).

Definition remote_branch : branch :=
  Branch (Some [key "url" TStr]) (Some []).

Definition info_key : descriptor :=
  Descriptor "info" TDict None None
    (Some (Conditional "kind"
             [(VStr "local", local_branch); (VStr "remote", remote_branch)]))
    None.

Definition kind_info : list descriptor := [key "kind" TStr; info_key].

(** The keys ["kind"] and ["info"], and a third key after them. *)
Definition kind_info_mode : list descriptor :=
  [key "kind" TStr; info_key; mode_key].

(** The keys ["kind"] and ["info"], and a third key before them. *)
Definition mode_kind_info : list descriptor :=
  [mode_key; key "kind" TStr; info_key].

(** A dict-typed key with a nested required list and a nested optional
    list. *)
Definition cfg_debug_key : descriptor :=
  Descriptor "cfg" TDict None (Some [key "port" TInt]) None
    (Some [key "debug" TBool]).

(** An optional dict-typed key that has its own optional list. *)
Definition opts_key : descriptor :=
  Descriptor "opts" TDict None None None (Some [key "depth" TInt]).

Definition local_data : dict :=
  [("kind", VStr "local"); ("info", VDict [("path", VStr "/tmp")])].

Definition port_extra_data : dict :=
  [("port", VInt 80); ("extra", VInt 1)].

Definition other_data : dict :=
  [("kind", VStr "other"); ("info", VDict [])].

(** A valid ["local"] mapping, and a ["mode"] outside of its
    [possible_values]. *)
Definition local_mode_data : dict :=
  [("kind", VStr "local"); ("info", VDict [("path", VStr "/tmp")]);
   ("mode", VStr "c")].

Definition other_mode_data : dict :=
  [("mode", VStr "c"); ("kind", VStr "other"); ("info", VDict [])].

(** Optional keys: ["level"], then ["opts"] with its nested list, then
    ["count"]. *)
Definition level_opts_count : list descriptor :=
  [key "level" TInt; opts_key; key "count" TInt].

(** ["count"] holds a string, not an [int]. *)
Definition opts_data : dict :=
  [("level", VInt 1); ("opts", VDict [("depth", VInt 3)]);
   ("count", VStr "many")].

(** A conditional key whose one entry holds ["expected_keys"] only. *)
Definition required_only_key : descriptor :=
  Descriptor "info" TDict None None
    (Some (Conditional "kind"
             [(VStr "local", Branch (Some [key "path" TStr]) None)]))
    None.

End Samples.

(** ** Notions used in the statements *)

(** [name in json_object], for the name of a descriptor. *)
Definition present (json_object : dict) (k : descriptor) : bool :=
  contains (param_name k) json_object.

(** [isinstance(json_object[name], type)] where the name is present. *)
Definition well_typed (json_object : dict) (k : descriptor) : bool :=
  match lookup (param_name k) json_object with
  | Some v => isinstance v (param_type k)
  | None => false
  end.

(** A log put in front of the log of a computation. *)
Definition prepend {A : Type} (lg : list string) (m : M A) : M A :=
  (lg ++ fst m, snd m).

(** The first entry of a [dependence_info] whose key equals [v]. *)
Fixpoint lookup_branch (v : value) (items : list (value * branch))
  : option branch :=
  match items with
  | [] => None
  | (k, info) :: items' => if py_eq k v then Some info else lookup_branch v items'
  end.

(** The body of the loop of [validate_expected] runs on [k] without
    leaving the method. *)
Definition falls_through (json_object : dict) (k : descriptor) : bool :=
  match validate_expected_body json_object k with
  | (_, Return None) => true
  | _ => false
  end.

(** What the loop of [validate_expected] logs while it runs on [ks]. *)
Definition prefix_log (json_object : dict) (ks : list descriptor) : list string :=
  flat_map (fun k => fst (validate_expected_body json_object k)) ks.

(** [validate_expected json_object (before ++ k :: after)] gets to run the
    body of its loop on [k]: the presence test and the type test pass, and
    the body falls through on every descriptor before [k]. *)
Definition reaches (json_object : dict) (before : list descriptor)
  (k : descriptor) (after : list descriptor) : bool :=
  forallb (present json_object) (before ++ k :: after) &&
  forallb (well_typed json_object) (before ++ k :: after) &&
  forallb (falls_through json_object) before.

(** The keys of the data mapping that a descriptor list names: the
    ["param_name"] of each descriptor and the ["depends_on"] of its
    ["conditional_keys"]. *)
Definition mentioned (ks : list descriptor) : list string :=
  flat_map (fun k =>
              param_name k ::
              match conditional_keys k with
              | Some ck => [depends_on ck]
              | None => []
              end) ks.

(** Lines 224-229 of [validate]: every key of the data mapping is among
    [valid_keys]. *)
Definition all_known (json_object : dict) (ks : list descriptor)
  (os : option (list descriptor)) : bool :=
  forallb (fun k => existsb (String.eqb k) (valid_keys ks os)) (keys json_object).

(** The contract of optional-key validation in the words of the
    specification, for one descriptor: if the key is present, its value has
    the expected type and, where the descriptor is dict-typed and has its
    own optional list, the nested mapping satisfies that list in turn.  A
    descriptor list is satisfied when [forallb (spec_optional_ok d)] holds
    of it. *)
Fixpoint spec_optional_ok (json_object : dict) (k : descriptor) {struct k}
  : bool :=
  match lookup (param_name k) json_object with
  | None => true
  | Some v =>
      isinstance v (param_type k) &&
      if pytype_eqb (param_type k) TDict then
        match optional_keys k, v with
        | Some nested, VDict nested_object =>
            forallb (spec_optional_ok nested_object) nested
        | _, _ => true
        end
      else true
  end.

(** The body of the loop of [validate_optional] does not fail on a
    descriptor that is satisfied. *)
Definition body_accepts (k : descriptor) : Prop :=
  forall d, spec_optional_ok d k = true ->
            exists r, validate_optional_body d k = ([], Return r) /\
                      r <> Some false.

(** Two data mappings hold the same thing under every key that [ks]
    names. *)
Definition agree_on (d d' : dict) (ks : list descriptor) : Prop :=
  forall n, In n (mentioned ks) -> lookup n d = lookup n d'.

(** *** Notions for the further properties *)

(** The five records the three methods hand to [logger.error]. *)
Definition diagnostics : list string :=
  ["invalid parameter detected"; "missing expected parameter";
   "incorrect expected parameter type"; "incorrect expected parameter value";
   "invalid optional parameter type"].

(** A call logs one record when it returns [False], and none when it returns
    [True] or raises. *)
Definition tidy (m : M bool) : Prop :=
  match m with
  | (lg, Return false) => exists msg, In msg diagnostics /\ lg = [msg]
  | (lg, _) => lg = []
  end.

(** The same for the body of a loop, which logs only where it leaves the
    method with [return False]. *)
Definition tidy_body (m : M (option bool)) : Prop :=
  match m with
  | (lg, Return (Some false)) => exists msg, In msg diagnostics /\ lg = [msg]
  | (lg, _) => lg = []
  end.

(** What holds of the lists of descriptors that [validate_expected] descends
    into from [k]: the nested ["expected_keys"], and the ["expected_keys"] of
    every entry of [dependence_info]. *)
Definition sub_expected (P : descriptor -> Prop) (k : descriptor) : Prop :=
  match expected_keys k with
  | Some nested => Forall P nested
  | None => True
  end /\
  match conditional_keys k with
  | Some ck =>
      Forall (fun item =>
                match branch_expected_keys (snd item) with
                | Some l => Forall P l
                | None => True
                end) (dependence_info ck)
  | None => True
  end.

(** No ["conditional_keys"] in the descriptor nor, through nested
    ["expected_keys"], below it. *)
Fixpoint no_conditional (k : descriptor) {struct k} : bool :=
  match conditional_keys k with
  | Some _ => false
  | None => true
  end &&
  match expected_keys k with
  | Some nested => forallb no_conditional nested
  | None => true
  end.

(** What the docstring of [validate_expected] asks of one descriptor: the
    key is in the mapping, its value has the type and is one of the
    ["possible_values"], and the mapping under a dict-typed key satisfies the
    nested ["expected_keys"] in turn. *)
Fixpoint expected_ok (json_object : dict) (k : descriptor) {struct k} : bool :=
  match lookup (param_name k) json_object with
  | None => false
  | Some v =>
      isinstance v (param_type k) &&
      match possible_values k with
      | Some values => py_in v values
      | None => true
      end &&
      if pytype_eqb (param_type k) TDict then
        match expected_keys k, v with
        | Some nested, VDict nested_object =>
            forallb (expected_ok nested_object) nested
        | _, _ => true
        end
      else true
  end.

(** An optional descriptor that [validate_optional] does not descend into:
    it is not dict-typed, or has no ["optional_keys"] list of its own. *)
Definition plain_optional (k : descriptor) : bool :=
  negb (pytype_eqb (param_type k) TDict) ||
  match optional_keys k with
  | Some _ => false
  | None => true
  end.

(** The descriptor with its ["possible_values"], ["expected_keys"] and
    ["conditional_keys"] taken out. *)
Definition only_type (k : descriptor) : descriptor :=
  Descriptor (param_name k) (param_type k) None None None (optional_keys k).

(** The descriptor with its ["expected_keys"] and ["conditional_keys"] taken
    out. *)
Definition without_nesting (k : descriptor) : descriptor :=
  Descriptor (param_name k) (param_type k) (possible_values k) None None
    (optional_keys k).

(** The body of the loop of [validate_expected] decides [expected_ok] for a descriptor that passed
    the first two phases. *)
Definition body_decides (k : descriptor) : Prop :=
  no_conditional k = true ->
  forall d, present d k = true -> well_typed d k = true ->
            exists lg, validate_expected_body d k
                       = (lg, Return (if expected_ok d k then None
                                      else Some false)).

(** The loop of [validate_expected] is at a dict-typed descriptor [k] and
    gets as far as its ["conditional_keys"]: the [possible_values] test and
    the nested ["expected_keys"] test of [k] pass. *)
Definition reaches_conditional (json_object : dict) (before : list descriptor)
  (k : descriptor) (after : list descriptor) : bool :=
  reaches json_object before k after &&
  pytype_eqb (param_type k) TDict &&
  match check_possible_values json_object k with
  | (_, Return None) => true
  | _ => false
  end &&
  match check_nested_expected validate_expected json_object k with
  | (_, Return None) => true
  | _ => false
  end.

(** ** Facts about computations *)

Lemma bind_ret {A B : Type} (a : A) (f : A -> M B) : bind (ret a) f = f a.
Proof. unfold bind, ret. now destruct (f a). Qed.

Lemma bind_Return {A B : Type} (l : list string) (a : A) (f : A -> M B) :
  bind (l, Return a) f = (l ++ fst (f a), snd (f a)).
Proof. unfold bind. now destruct (f a). Qed.

Lemma bind_Return_inv {A B : Type} (m : M A) (f : A -> M B) lg (b : B) :
  bind m f = (lg, Return b) ->
  exists l1 a l2, m = (l1, Return a) /\ f a = (l2, Return b) /\ lg = l1 ++ l2.
Proof.
  destruct m as [l1 [a | e]]; unfold bind; [| discriminate].
  destruct (f a) as [l2 r] eqn:Hf. intros H. inversion H; subst.
  now exists l1, a, l2.
Qed.

Lemma getitem_Some (d : dict) (k : string) (v : value) :
  lookup k d = Some v -> getitem d k = ret v.
Proof. unfold getitem. now intros ->. Qed.

(** ** Facts about the first two phases of [validate_expected] *)

Lemma all_map {A : Type} (f : A -> bool) (l : list A) :
  all (map f l) = forallb f l.
Proof. unfold all. induction l as [| x l IH]; simpl; [easy | now rewrite IH]. Qed.

Lemma existsb_eqb_In (k : string) (l : list string) :
  existsb (String.eqb k) l = true <-> In k l.
Proof.
  rewrite existsb_exists. split.
  - intros [x [Hin Heq]]. apply String.eqb_eq in Heq. now subst.
  - intros Hin. exists k. split; [easy | apply String.eqb_refl].
Qed.

Lemma present_lookup (d : dict) (k : descriptor) :
  present d k = true -> exists v, lookup (param_name k) d = Some v.
Proof.
  unfold present, contains. destruct (lookup (param_name k) d) as [v |].
  - now exists v.
  - discriminate.
Qed.

Lemma well_typed_lookup (d : dict) (k : descriptor) :
  well_typed d k = true ->
  exists v, lookup (param_name k) d = Some v /\ isinstance v (param_type k) = true.
Proof.
  unfold well_typed. destruct (lookup (param_name k) d) as [v |].
  - now exists v.
  - discriminate.
Qed.

Lemma lookup_Some_key {A : Type} (n : string) (a : list (string * A)) (v : A) :
  lookup n a = Some v -> In n (keys a).
Proof.
  induction a as [| [k x] a IH]; simpl; [discriminate |].
  destruct (String.eqb n k) eqn:E.
  - apply String.eqb_eq in E. now left.
  - intros H. right. now apply IH.
Qed.

(** A value that passes [isinstance(_, dict)] is a dict. *)
Lemma isinstance_dict (v : value) :
  isinstance v TDict = true -> exists d, v = VDict d.
Proof. destruct v; try discriminate. intros _. now eexists. Qed.

Lemma mapM_types (d : dict) (ks : list descriptor) :
  forallb (present d) ks = true ->
  mapM (fun expected_key =>
          v <- getitem d (param_name expected_key) ;;
          ret (isinstance v (param_type expected_key))) ks
  = ret (map (well_typed d) ks).
Proof.
  induction ks as [| k ks IH]; simpl; [easy |].
  intros H. apply andb_true_iff in H as [Hk Hks].
  destruct (present_lookup _ _ Hk) as [v Hv].
  rewrite (getitem_Some _ _ _ Hv), !bind_ret, (IH Hks), bind_ret.
  replace (well_typed d k) with (isinstance v (param_type k));
    [reflexivity | unfold well_typed; now rewrite Hv].
Qed.

(** [validate_expected] as its three phases. *)
Lemma validate_expected_with_eq body (d : dict) (ks : list descriptor) :
  validate_expected_with body d ks =
  if negb (forallb (present d) ks) then
    (["missing expected parameter"], Return false)
  else if negb (forallb (well_typed d) ks) then
    (["incorrect expected parameter type"], Return false)
  else for_each body d ks.
Proof.
  unfold validate_expected_with.
  rewrite map_map, all_map.
  change (fun x => contains (param_name x) d) with (present d).
  destruct (forallb (present d) ks) eqn:Hp; simpl negb; cbv iota; [| reflexivity].
  rewrite (mapM_types _ _ Hp), bind_ret, all_map.
  now destruct (forallb (well_typed d) ks).
Qed.

Lemma validate_expected_body_eq (d : dict) (k : descriptor) :
  validate_expected_body d k = expected_body validate_expected validate d k.
Proof. now destruct k. Qed.

Lemma validate_optional_body_eq (d : dict) (k : descriptor) :
  validate_optional_body d k = optional_body validate_optional d k.
Proof. now destruct k. Qed.

(** ** Orchestration: unknown keys, presence and types *)

Lemma validate_with_eq ve (d : dict) (ks : list descriptor)
  (os : option (list descriptor)) :
  validate_with ve d ks os =
  if negb (forallb (fun k => existsb (String.eqb k) (valid_keys ks os)) (keys d))
  then (["invalid parameter detected"], Return false)
  else
    ok <- ve d ks ;;
    if ok then
      match os with
      | Some os' => ok' <- validate_optional d os' ;; if ok' then ret true else ret false
      | None => ret true
      end
    else ret false.
Proof.
  unfold validate_with. rewrite all_map.
  now destruct (forallb _ (keys d)).
Qed.

Lemma unknown_key_detected (d : dict) (ks : list descriptor)
  (os : option (list descriptor)) (k : string) :
  In k (keys d) -> ~ In k (valid_keys ks os) ->
  forallb (fun k => existsb (String.eqb k) (valid_keys ks os)) (keys d) = false.
Proof.
  intros Hin Hnot. apply not_true_is_false. intros Hall.
  rewrite forallb_forall in Hall. apply Hnot, existsb_eqb_In. now apply Hall.
Qed.

(** C1.  A data mapping with a key that is neither the name of a required
    descriptor nor the name of an optional one makes [validate] return
    [False].  The only diagnostic is the one of the unknown-key test, and the
    result is the same whatever [validate_expected] would do on the mapping:
    the rejection comes before any presence or type check. *)
Theorem validate_rejects_unknown_key (d : dict) (ks : list descriptor)
  (os : option (list descriptor)) (k : string) :
  In k (keys d) ->
  ~ In k (valid_keys ks os) ->
  validate d ks os = (["invalid parameter detected"], Return false) /\
  forall validate_expected_,
    validate_with validate_expected_ d ks os
    = (["invalid parameter detected"], Return false).
Proof.
  intros Hin Hnot.
  assert (H : forall ve, validate_with ve d ks os
                         = (["invalid parameter detected"], Return false)).
  { intros ve. rewrite validate_with_eq.
    now rewrite (unknown_key_detected _ _ _ _ Hin Hnot). }
  split; [apply H | exact H].
Qed.

Lemma validate_rejects_unknown_key_witness :
  In "extra" (keys Samples.port_extra_data) /\
  ~ In "extra" (valid_keys [Samples.key "port" TInt] None) /\
  validate Samples.port_extra_data [Samples.key "port" TInt] None
  = (["invalid parameter detected"], Return false).
Proof.
  assert (Hin : In "extra" (keys Samples.port_extra_data)).
  { simpl. right. left. reflexivity. }
  assert (Hnot : ~ In "extra" (valid_keys [Samples.key "port" TInt] None)).
  { simpl. intros [H | []]. discriminate H. }
  split; [exact Hin | split; [exact Hnot |]].
  exact (proj1 (validate_rejects_unknown_key _ _ None "extra" Hin Hnot)).
Defined.

Lemma missing_key_detected (d : dict) (ks : list descriptor) (k : descriptor) :
  In k ks -> contains (param_name k) d = false ->
  forallb (present d) ks = false.
Proof.
  intros Hin Hmiss. apply not_true_is_false. intros Hall.
  rewrite forallb_forall in Hall. apply Hall in Hin.
  unfold present in Hin. congruence.
Qed.

(** C5.  When the name of some required descriptor is missing from the data
    mapping, [validate_expected] returns [False] with the diagnostic of the
    presence test alone.  Nothing but the names of the descriptors is looked
    at: every descriptor list with the same names gives the same result, so
    no type is inspected before all names are known to be present. *)
Theorem validate_expected_presence_first (d : dict) (ks : list descriptor)
  (k : descriptor) :
  In k ks ->
  contains (param_name k) d = false ->
  validate_expected d ks = (["missing expected parameter"], Return false) /\
  forall ks',
    map param_name ks' = map param_name ks ->
    validate_expected d ks' = (["missing expected parameter"], Return false).
Proof.
  intros Hin Hmiss.
  assert (H : forall ks', map param_name ks' = map param_name ks ->
              forallb (present d) ks' = false).
  { intros ks' Hnames.
    assert (E : forall l, forallb (present d) l
                          = forallb (fun n => contains n d) (map param_name l)).
    { induction l as [| x l IH]; simpl; [easy | now rewrite IH]. }
    rewrite E, Hnames, <- E. now apply missing_key_detected with k. }
  split; [| intros ks' Hnames];
    unfold validate_expected; rewrite validate_expected_with_eq.
  - now rewrite (H ks eq_refl).
  - now rewrite (H ks' Hnames).
Qed.

Lemma validate_expected_presence_first_witness :
  In (Samples.key "id" TInt)
    [Samples.key "kind" TStr; Samples.key "id" TInt] /\
  contains "id" [("kind", VInt 3)] = false /\
  validate_expected [("kind", VInt 3)]
    [Samples.key "kind" TStr; Samples.key "id" TInt]
  = (["missing expected parameter"], Return false).
Proof.
  assert (Hin : In (Samples.key "id" TInt)
                   [Samples.key "kind" TStr; Samples.key "id" TInt]).
  { right. left. reflexivity. }
  split; [exact Hin | split; [reflexivity |]].
  exact (proj1 (validate_expected_presence_first [("kind", VInt 3)] _ _ Hin eq_refl)).
Defined.

Lemma validate_expected_true_inv (d : dict) (ks : list descriptor) lg :
  validate_expected d ks = (lg, Return true) ->
  forallb (present d) ks = true /\ forallb (well_typed d) ks = true.
Proof.
  unfold validate_expected. rewrite validate_expected_with_eq.
  destruct (forallb (present d) ks); [| discriminate].
  destruct (forallb (well_typed d) ks); [easy | discriminate].
Qed.

Lemma validate_true_inv (d : dict) (ks : list descriptor)
  (os : option (list descriptor)) lg :
  validate d ks os = (lg, Return true) ->
  exists lg', validate_expected d ks = (lg', Return true).
Proof.
  unfold validate. rewrite validate_with_eq.
  destruct (forallb _ (keys d)); [| discriminate]. simpl negb. cbv iota.
  intros H. apply bind_Return_inv in H as (l1 & ok & l2 & Hve & Hrest & _).
  destruct ok.
  - now exists l1.
  - discriminate Hrest.
Qed.

(** What passes [isinstance]: a value of the type asked for, and a [bool]
    where [int] is asked for. *)
Lemma isinstance_cases (v : value) (t : pytype) :
  isinstance v t = true ->
  type_of v = t \/ (type_of v = TBool /\ t = TInt).
Proof.
  destruct v, t; simpl; intros H; try discriminate H;
    solve [now left | now right].
Qed.

(** C6, as the code has it.  When [validate] returns [True], the name of
    every required descriptor is a key of the data mapping, and the value
    stored under it passes [isinstance] for the expected type of the
    descriptor: the type of the value is the expected type, or the value is
    a [bool] and the expected type is [int]. *)
Theorem validate_true_required_present_typed (d : dict) (ks : list descriptor)
  (os : option (list descriptor)) (lg : list string) (k : descriptor) :
  validate d ks os = (lg, Return true) ->
  In k ks ->
  In (param_name k) (keys d) /\
  exists v,
    lookup (param_name k) d = Some v /\
    isinstance v (param_type k) = true /\
    (type_of v = param_type k \/
     (type_of v = TBool /\ param_type k = TInt)).
Proof.
  intros Hv Hin.
  destruct (validate_true_inv _ _ _ _ Hv) as [lg' Hve].
  destruct (validate_expected_true_inv _ _ _ Hve) as [_ Ht].
  rewrite forallb_forall in Ht.
  destruct (well_typed_lookup _ _ (Ht _ Hin)) as (v & Hl & Hi).
  split; [now apply lookup_Some_key with v |].
  exists v. split; [exact Hl | split; [exact Hi |]].
  now apply isinstance_cases.
Qed.

(** The claim C6 does not hold with the type of the value for "matches":
    the mapping holds the [bool] [True] under a required key of type [int],
    and [validate] and [validate_expected] return [True]. *)
Lemma bool_value_accepted_for_int_key :
  In (Samples.key "n" TInt) [Samples.key "n" TInt] /\
  lookup "n" [("n", VBool true)] = Some (VBool true) /\
  type_of (VBool true) <> param_type (Samples.key "n" TInt) /\
  validate [("n", VBool true)] [Samples.key "n" TInt] None
  = ([], Return true) /\
  validate_expected [("n", VBool true)] [Samples.key "n" TInt]
  = ([], Return true).
Proof.
  split; [now left | split; [reflexivity | split]].
  - simpl. discriminate.
  - split; reflexivity.
Qed.

Lemma validate_true_required_present_typed_witness :
  validate Samples.local_data Samples.kind_info None = ([], Return true) /\
  In Samples.info_key Samples.kind_info /\
  In "info" (keys Samples.local_data) /\
  exists v,
    lookup "info" Samples.local_data = Some v /\
    isinstance v TDict = true /\
    (type_of v = TDict \/ (type_of v = TBool /\ TDict = TInt)).
Proof.
  assert (Hin : In Samples.info_key Samples.kind_info).
  { right. left. reflexivity. }
  split; [reflexivity | split; [exact Hin |]].
  exact (validate_true_required_present_typed
           Samples.local_data Samples.kind_info None [] Samples.info_key
           eq_refl Hin).
Defined.

(** ** Facts about the loops *)

Lemma prepend_nil {A : Type} (m : M A) : prepend [] m = m.
Proof. now destruct m. Qed.

Lemma prepend_prepend {A : Type} (l1 l2 : list string) (m : M A) :
  prepend l1 (prepend l2 m) = prepend (l1 ++ l2) m.
Proof. unfold prepend. simpl. now rewrite app_assoc. Qed.

Lemma bind_prepend {A B : Type} (l : list string) (a : A) (f : A -> M B) :
  bind (l, Return a) f = prepend l (f a).
Proof. apply bind_Return. Qed.

Lemma for_each_cons body (d : dict) (k : descriptor) (ks : list descriptor) :
  for_each body d (k :: ks) =
  r <- body d k ;;
  match r with
  | Some b => ret b
  | None => for_each body d ks
  end.
Proof. reflexivity. Qed.

Lemma falls_through_eq (d : dict) (k : descriptor) :
  falls_through d k = true ->
  validate_expected_body d k = (fst (validate_expected_body d k), Return None).
Proof.
  unfold falls_through.
  destruct (validate_expected_body d k) as [l [[b |] | e]]; easy.
Qed.

Lemma for_each_falls_through (d : dict) (before after : list descriptor) :
  forallb (falls_through d) before = true ->
  for_each validate_expected_body d (before ++ after) =
  prepend (prefix_log d before) (for_each validate_expected_body d after).
Proof.
  induction before as [| k before IH]; simpl app; intros H.
  - now rewrite prepend_nil.
  - simpl in H. apply andb_true_iff in H as [Hk Hb].
    rewrite for_each_cons, (falls_through_eq _ _ Hk), bind_prepend, (IH Hb).
    simpl prefix_log. now rewrite prepend_prepend.
Qed.

(** What [validate_expected] does once its loop is at [k]. *)
Lemma validate_expected_reaches (d : dict) (before : list descriptor)
  (k : descriptor) (after : list descriptor) :
  reaches d before k after = true ->
  validate_expected d (before ++ k :: after) =
  prepend (prefix_log d before)
    (r <- validate_expected_body d k ;;
     match r with
     | Some b => ret b
     | None => for_each validate_expected_body d after
     end).
Proof.
  unfold reaches. intros H.
  apply andb_true_iff in H as [H Hf]. apply andb_true_iff in H as [Hp Ht].
  unfold validate_expected. rewrite validate_expected_with_eq, Hp, Ht.
  simpl negb. cbv iota.
  now rewrite (for_each_falls_through _ _ _ Hf), for_each_cons.
Qed.

(** The subscript of [dependence_info] as a lookup. *)
Lemma check_conditional_eq validate_ (d : dict) (k : descriptor) (ck : conditional) :
  check_conditional validate_ d k ck =
  depends_on_val <- getitem d (depends_on ck) ;;
  if negb (hashable depends_on_val) then raise TypeError
  else
    match lookup_branch depends_on_val (dependence_info ck) with
    | None => raise KeyError
    | Some info =>
        match branch_optional_keys info with
        | None => raise KeyError
        | Some nested_optional_keys =>
            match branch_expected_keys info with
            | None => raise KeyError
            | Some nested_expected_keys =>
                v <- getitem d (param_name k) ;;
                nested_object <- as_dict v ;;
                b <- validate_ nested_object nested_expected_keys
                       (Some nested_optional_keys) ;;
                ret (Some b)
            end
        end
    end.
Proof.
  unfold check_conditional.
  destruct (getitem d (depends_on ck)) as [l [v | e]]; [| reflexivity].
  rewrite !bind_Return. destruct (hashable v); [| reflexivity].
  simpl negb. cbv iota.
  induction (dependence_info ck) as [| [key info] items IH]; [reflexivity |].
  simpl lookup_branch. destruct (py_eq key v); [reflexivity | exact IH].
Qed.

Lemma bind_bind_ret_Some (l : list string) (m : M bool) (k : M bool) :
  (r <- prepend l (b <- m ;; ret (Some b)) ;;
   match r with
   | Some b => ret b
   | None => k
   end) = prepend l m.
Proof.
  destruct m as [l' [b | e]]; unfold prepend, bind, ret; simpl;
    now rewrite ?app_nil_r.
Qed.

(** The body of the loop on a dict-typed key whose [possible_values] test
    and nested [expected_keys] test pass. *)
Lemma expected_body_after_nested (d : dict) (k : descriptor) lg1 :
  param_type k = TDict ->
  check_possible_values d k = ([], Return None) ->
  check_nested_expected validate_expected d k = (lg1, Return None) ->
  validate_expected_body d k =
  prepend lg1
    match conditional_keys k with
    | Some ck => check_conditional validate d k ck
    | None => ret None
    end.
Proof.
  intros Ht Hpv Hne.
  rewrite validate_expected_body_eq. unfold expected_body.
  rewrite Hpv, Ht. change ([], Return None) with (@ret (option bool) None).
  rewrite bind_ret. simpl pytype_eqb. cbv iota.
  now rewrite Hne, bind_prepend.
Qed.

(** ** Conditional keys *)

(** C4.  Let the loop of [validate_expected] get to a dict-typed descriptor
    [k] that has ["conditional_keys"], let the [possible_values] test and the
    nested [expected_keys] test of [k] pass, and let the value of the
    [depends_on] key select the entry [info] of [dependence_info].  Then the
    call returns what [validate] returns on the nested mapping with the lists
    of [info]: the descriptors after [k] only take part in the presence test
    and the type test. *)
Theorem conditional_verdict_is_final (d : dict) (before : list descriptor)
  (k : descriptor) (after : list descriptor) (ck : conditional)
  (lg1 : list string) (v : value) (info : branch)
  (nested_expected_keys nested_optional_keys : list descriptor)
  (nested_object : dict) :
  reaches d before k after = true ->
  param_type k = TDict ->
  conditional_keys k = Some ck ->
  check_possible_values d k = ([], Return None) ->
  check_nested_expected validate_expected d k = (lg1, Return None) ->
  lookup (depends_on ck) d = Some v ->
  hashable v = true ->
  lookup_branch v (dependence_info ck) = Some info ->
  branch_expected_keys info = Some nested_expected_keys ->
  branch_optional_keys info = Some nested_optional_keys ->
  lookup (param_name k) d = Some (VDict nested_object) ->
  validate_expected d (before ++ k :: after) =
  prepend (prefix_log d before ++ lg1)
    (validate nested_object nested_expected_keys (Some nested_optional_keys)).
Proof.
  intros Hr Ht Hck Hpv Hne Hdep Hh Hb Hbe Hbo Hv.
  rewrite (validate_expected_reaches _ _ _ _ Hr).
  rewrite (expected_body_after_nested _ _ _ Ht Hpv Hne), Hck.
  rewrite check_conditional_eq.
  rewrite (getitem_Some _ _ _ Hdep), bind_ret, Hh. simpl negb. cbv iota.
  rewrite Hb, Hbo, Hbe, (getitem_Some _ _ _ Hv), bind_ret.
  simpl as_dict. rewrite bind_ret.
  now rewrite bind_bind_ret_Some, prepend_prepend.
Qed.

Lemma conditional_verdict_is_final_witness :
  reaches Samples.local_mode_data
    [Samples.key "kind" TStr] Samples.info_key [Samples.mode_key] = true /\
  validate_expected Samples.local_mode_data Samples.kind_info_mode
  = prepend []
      (validate [("path", VStr "/tmp")] [Samples.key "path" TStr] (Some [])).
Proof.
  split; [reflexivity |].
  exact (conditional_verdict_is_final
           Samples.local_mode_data
           [Samples.key "kind" TStr] Samples.info_key [Samples.mode_key]
           (Conditional "kind"
              [(VStr "local", Samples.local_branch);
               (VStr "remote", Samples.remote_branch)])
           [] (VStr "local") Samples.local_branch
           [Samples.key "path" TStr] [] [("path", VStr "/tmp")]
           eq_refl eq_refl eq_refl eq_refl eq_refl eq_refl eq_refl eq_refl
           eq_refl eq_refl eq_refl).
Defined.

Lemma validate_Raise (d : dict) (ks : list descriptor)
  (os : option (list descriptor)) lg e :
  all_known d ks os = true ->
  validate_expected d ks = (lg, Raise e) ->
  validate d ks os = (lg, Raise e).
Proof.
  unfold validate, all_known. intros Hk He.
  now rewrite validate_with_eq, Hk, He.
Qed.

(** C2, as the code has it.  Let the loop of [validate_expected] get to a
    dict-typed descriptor [k] that has ["conditional_keys"], let the
    [possible_values] test and the nested [expected_keys] test of [k] pass,
    and let no key of [dependence_info] equal the value [v] of the
    [depends_on] key.  Then [validate_expected] raises: [KeyError], or
    [TypeError] when [v] is a list or a dict.  [validate] raises the same
    error when the data mapping has no unknown key. *)
Theorem unmatched_branch_raises (d : dict) (before : list descriptor)
  (k : descriptor) (after : list descriptor) (os : option (list descriptor))
  (ck : conditional) (lg1 : list string) (v : value) :
  reaches d before k after = true ->
  param_type k = TDict ->
  conditional_keys k = Some ck ->
  check_possible_values d k = ([], Return None) ->
  check_nested_expected validate_expected d k = (lg1, Return None) ->
  lookup (depends_on ck) d = Some v ->
  lookup_branch v (dependence_info ck) = None ->
  validate_expected d (before ++ k :: after)
  = (prefix_log d before ++ lg1,
     Raise (if hashable v then KeyError else TypeError)) /\
  (all_known d (before ++ k :: after) os = true ->
   validate d (before ++ k :: after) os
   = (prefix_log d before ++ lg1,
      Raise (if hashable v then KeyError else TypeError))).
Proof.
  intros Hr Ht Hck Hpv Hne Hdep Hb.
  assert (H : validate_expected d (before ++ k :: after)
              = (prefix_log d before ++ lg1,
                 Raise (if hashable v then KeyError else TypeError))).
  { rewrite (validate_expected_reaches _ _ _ _ Hr).
    rewrite (expected_body_after_nested _ _ _ Ht Hpv Hne), Hck.
    rewrite check_conditional_eq.
    rewrite (getitem_Some _ _ _ Hdep), bind_ret, Hb.
    destruct (hashable v); unfold prepend, raise, bind; simpl;
      now rewrite app_nil_r. }
  split; [exact H |].
  intros Hk. now apply validate_Raise.
Qed.

Lemma unmatched_branch_raises_witness :
  reaches Samples.other_data [Samples.key "kind" TStr] Samples.info_key []
  = true /\
  lookup "kind" Samples.other_data = Some (VStr "other") /\
  validate_expected Samples.other_data Samples.kind_info = ([], Raise KeyError) /\
  validate Samples.other_data Samples.kind_info None = ([], Raise KeyError).
Proof.
  pose proof
    (unmatched_branch_raises
       Samples.other_data [Samples.key "kind" TStr] Samples.info_key [] None
       (Conditional "kind"
          [(VStr "local", Samples.local_branch);
           (VStr "remote", Samples.remote_branch)])
       [] (VStr "other")
       eq_refl eq_refl eq_refl eq_refl eq_refl eq_refl eq_refl) as [H1 H2].
  split; [reflexivity | split; [reflexivity | split]].
  - exact H1.
  - exact (H2 eq_refl).
Defined.

(** The claim C2 does not hold of every data mapping: here the value of
    ["kind"] has no entry in the [dependence_info] of ["info"], and both
    methods return [False], because the loop leaves at the key ["mode"]
    before it gets to ["info"]. *)
Lemma unmatched_branch_not_always_raised :
  lookup "kind" Samples.other_mode_data = Some (VStr "other") /\
  lookup_branch (VStr "other")
    [(VStr "local", Samples.local_branch);
     (VStr "remote", Samples.remote_branch)] = None /\
  validate Samples.other_mode_data Samples.mode_kind_info None
  = (["incorrect expected parameter value"], Return false) /\
  validate_expected Samples.other_mode_data Samples.mode_kind_info
  = (["incorrect expected parameter value"], Return false) /\
  ~ (exists lg e,
       validate Samples.other_mode_data Samples.mode_kind_info None
       = (lg, Raise e)).
Proof.
  repeat split. intros (lg & e & H). discriminate H.
Qed.

(** ** [validate_expected] reads the data mapping only at the keys its
    descriptors name *)

Lemma lookup_app {A : Type} (n : string) (a b : list (string * A)) :
  lookup n (a ++ b) =
  match lookup n a with
  | Some v => Some v
  | None => lookup n b
  end.
Proof.
  induction a as [| [k v] a IH]; simpl; [reflexivity |].
  now destruct (String.eqb n k).
Qed.

Lemma lookup_not_key {A : Type} (n : string) (a : list (string * A)) :
  ~ In n (keys a) -> lookup n a = None.
Proof.
  induction a as [| [k v] a IH]; simpl; [reflexivity |].
  intros H. destruct (String.eqb n k) eqn:E.
  - apply String.eqb_eq in E. subst. exfalso. apply H. now left.
  - apply IH. intros Hin. apply H. now right.
Qed.

Lemma lookup_without (n : string) (d1 extra d2 : dict) :
  ~ In n (keys extra) ->
  lookup n (d1 ++ extra ++ d2) = lookup n (d1 ++ d2).
Proof.
  intros H. now rewrite !lookup_app, (lookup_not_key _ _ H).
Qed.

Lemma validate_expected_body_frame (d d' : dict) (k : descriptor) :
  lookup (param_name k) d = lookup (param_name k) d' ->
  (forall ck, conditional_keys k = Some ck ->
              lookup (depends_on ck) d = lookup (depends_on ck) d') ->
  validate_expected_body d k = validate_expected_body d' k.
Proof.
  intros Hn Hc. rewrite !validate_expected_body_eq.
  unfold expected_body, check_possible_values, check_nested_expected.
  destruct (conditional_keys k) as [ck |].
  - unfold check_conditional, getitem. now rewrite Hn, (Hc ck eq_refl).
  - unfold getitem. now rewrite Hn.
Qed.

Lemma mentioned_cons (k : descriptor) (ks : list descriptor) (n : string) :
  In n (mentioned ks) -> In n (mentioned (k :: ks)).
Proof.
  intros H. unfold mentioned. simpl. right. apply in_or_app. now right.
Qed.

Lemma mentioned_name (k : descriptor) (ks : list descriptor) :
  In (param_name k) (mentioned (k :: ks)).
Proof. now left. Qed.

Lemma mentioned_depends_on (k : descriptor) (ks : list descriptor)
  (ck : conditional) :
  conditional_keys k = Some ck -> In (depends_on ck) (mentioned (k :: ks)).
Proof.
  intros H. unfold mentioned. simpl. rewrite H. right. now left.
Qed.

Lemma agree_on_tail (d d' : dict) (k : descriptor) (ks : list descriptor) :
  agree_on d d' (k :: ks) -> agree_on d d' ks.
Proof. intros H n Hn. now apply H, mentioned_cons. Qed.

Lemma present_frame (d d' : dict) (ks : list descriptor) :
  agree_on d d' ks -> forallb (present d) ks = forallb (present d') ks.
Proof.
  induction ks as [| k ks IH]; intros H; simpl; [reflexivity |].
  rewrite (IH (agree_on_tail _ _ _ _ H)). unfold present, contains.
  now rewrite (H _ (mentioned_name k ks)).
Qed.

Lemma well_typed_frame (d d' : dict) (ks : list descriptor) :
  agree_on d d' ks -> forallb (well_typed d) ks = forallb (well_typed d') ks.
Proof.
  induction ks as [| k ks IH]; intros H; simpl; [reflexivity |].
  rewrite (IH (agree_on_tail _ _ _ _ H)). unfold well_typed.
  now rewrite (H _ (mentioned_name k ks)).
Qed.

Lemma for_each_frame (d d' : dict) (ks : list descriptor) :
  agree_on d d' ks ->
  for_each validate_expected_body d ks = for_each validate_expected_body d' ks.
Proof.
  induction ks as [| k ks IH]; intros H; [reflexivity |].
  rewrite !for_each_cons, (IH (agree_on_tail _ _ _ _ H)).
  rewrite (validate_expected_body_frame d d' k); [reflexivity | |].
  - apply H, mentioned_name.
  - intros ck Hck. now apply H, mentioned_depends_on.
Qed.

Lemma validate_expected_frame (d d' : dict) (ks : list descriptor) :
  agree_on d d' ks -> validate_expected d ks = validate_expected d' ks.
Proof.
  intros H. unfold validate_expected. rewrite !validate_expected_with_eq.
  now rewrite (present_frame _ _ _ H), (well_typed_frame _ _ _ H),
    (for_each_frame _ _ _ H).
Qed.

Lemma validate_expected_without (d1 extra d2 : dict) (ks : list descriptor) :
  (forall n, In n (keys extra) -> ~ In n (mentioned ks)) ->
  validate_expected (d1 ++ extra ++ d2) ks = validate_expected (d1 ++ d2) ks.
Proof.
  intros H. apply validate_expected_frame. intros n Hn.
  apply lookup_without. intros Hin. now apply (H n Hin).
Qed.

(** C10.  [validate_expected] rejects no unknown key.  Items of the data
    mapping whose keys no descriptor of the list names (as its
    ["param_name"], or as the ["depends_on"] of its ["conditional_keys"]) can
    be taken out of the mapping without any change to the log and the
    result, so they never make the call return [False]; and with an empty
    descriptor list the call returns [True] on every mapping. *)
Theorem validate_expected_ignores_unknown_keys (d1 extra d2 : dict)
  (ks : list descriptor) :
  (forall n, In n (keys extra) -> ~ In n (mentioned ks)) ->
  validate_expected (d1 ++ extra ++ d2) ks = validate_expected (d1 ++ d2) ks /\
  forall d : dict, validate_expected d [] = ([], Return true).
Proof.
  intros H. split; [now apply validate_expected_without | reflexivity].
Qed.

(** ** Nested [expected_keys] *)

Lemma check_nested_expected_result (d : dict) (k : descriptor)
  (nested : list descriptor) (nested_object : dict) lg (b : bool) :
  expected_keys k = Some nested ->
  lookup (param_name k) d = Some (VDict nested_object) ->
  validate_expected nested_object nested = (lg, Return b) ->
  check_nested_expected validate_expected d k
  = (lg, Return (if b then None else Some false)).
Proof.
  intros He Hv Hn. unfold check_nested_expected.
  rewrite He, (getitem_Some _ _ _ Hv), bind_ret. simpl as_dict.
  rewrite bind_ret, Hn, bind_Return.
  destruct b; simpl; now rewrite app_nil_r.
Qed.

(** C3, as the code has it.  Let the loop of [validate_expected] get to a
    dict-typed descriptor [k] that has a nested ["expected_keys"] list, and
    let the [possible_values] test of [k] pass.  The nested mapping is checked
    by [validate_expected] itself with that list, not by [validate]: items of
    the nested mapping under keys the nested list does not name ([extra]
    below) have no part in the verdict, and the ["optional_keys"] of [k] are
    not looked at.  A nested [False] makes the call return [False]; after a
    nested [True] the loop goes on with the next descriptor (when [k] has no
    ["conditional_keys"]). *)
Theorem nested_expected_keys_checked_by_validate_expected
  (d : dict) (before : list descriptor) (k : descriptor)
  (after nested : list descriptor) (o1 extra o2 : dict)
  (lg : list string) (b : bool) :
  reaches d before k after = true ->
  param_type k = TDict ->
  expected_keys k = Some nested ->
  check_possible_values d k = ([], Return None) ->
  lookup (param_name k) d = Some (VDict (o1 ++ extra ++ o2)) ->
  (forall n, In n (keys extra) -> ~ In n (mentioned nested)) ->
  validate_expected (o1 ++ o2) nested = (lg, Return b) ->
  (b = false ->
   validate_expected d (before ++ k :: after)
   = (prefix_log d before ++ lg, Return false)) /\
  (b = true -> conditional_keys k = None ->
   validate_expected d (before ++ k :: after)
   = prepend (prefix_log d before ++ lg)
       (for_each validate_expected_body d after)).
Proof.
  intros Hr Ht He Hpv Hv Hextra Hn.
  rewrite <- (validate_expected_without _ _ _ _ Hextra) in Hn.
  pose proof (check_nested_expected_result _ _ _ _ _ _ He Hv Hn) as Hc.
  rewrite (validate_expected_reaches _ _ _ _ Hr).
  split.
  - intros ->. rewrite validate_expected_body_eq. unfold expected_body.
    rewrite Hpv, Ht. change ([], Return None) with (@ret (option bool) None).
    rewrite bind_ret. simpl pytype_eqb. cbv iota.
    rewrite Hc. unfold prepend, bind, ret. simpl. now rewrite !app_nil_r.
  - intros -> Hck.
    rewrite (expected_body_after_nested _ _ _ Ht Hpv Hc), Hck.
    unfold prepend at 2. simpl fst. simpl snd. rewrite app_nil_r.
    now rewrite bind_prepend, prepend_prepend.
Qed.

Lemma nested_expected_keys_checked_by_validate_expected_witness :
  reaches [("cfg", VDict ([("port", VStr "80")] ++ [("extra", VInt 1)] ++ []))]
    [] Samples.cfg_debug_key [] = true /\
  (forall n, In n (keys [("extra", VInt 1)]) ->
             ~ In n (mentioned [Samples.key "port" TInt])) /\
  validate_expected [("port", VStr "80")] [Samples.key "port" TInt]
  = (["incorrect expected parameter type"], Return false) /\
  validate_expected
    [("cfg", VDict ([("port", VStr "80")] ++ [("extra", VInt 1)] ++ []))]
    [Samples.cfg_debug_key]
  = (["incorrect expected parameter type"], Return false).
Proof.
  assert (Hextra : forall n, In n (keys [("extra", VInt 1)]) ->
                             ~ In n (mentioned [Samples.key "port" TInt])).
  { simpl. intros n [<- | []] [H | []]. discriminate H. }
  split; [reflexivity | split; [exact Hextra | split; [reflexivity |]]].
  exact (proj1
           (nested_expected_keys_checked_by_validate_expected
              [("cfg", VDict ([("port", VStr "80")] ++ [("extra", VInt 1)] ++ []))]
              [] Samples.cfg_debug_key [] [Samples.key "port" TInt]
              [("port", VStr "80")] [("extra", VInt 1)] []
              ["incorrect expected parameter type"] false
              eq_refl eq_refl eq_refl eq_refl eq_refl Hextra eq_refl)
           eq_refl).
Defined.

(** The claim C3 does not hold: [validate] rejects the nested mapping for its
    unknown key ["extra"] (and would look at the optional ["debug"]), but
    [validate_expected] and [validate] accept the mapping around it. *)
Lemma nested_mapping_not_checked_by_validate :
  validate [("port", VInt 80); ("extra", VInt 1)]
    [Samples.key "port" TInt] (optional_keys Samples.cfg_debug_key)
  = (["invalid parameter detected"], Return false) /\
  validate_expected
    [("cfg", VDict [("port", VInt 80); ("extra", VInt 1)])]
    [Samples.cfg_debug_key]
  = ([], Return true) /\
  validate
    [("cfg", VDict [("port", VInt 80); ("extra", VInt 1)])]
    [Samples.cfg_debug_key] None
  = ([], Return true).
Proof. repeat split. Qed.

(** ** Optional keys *)

Lemma pytype_eqb_eq (a b : pytype) : pytype_eqb a b = true <-> a = b.
Proof. destruct a, b; simpl; split; congruence. Qed.

Lemma validate_optional_cons (d : dict) (k : descriptor) (ks : list descriptor) :
  validate_optional d (k :: ks) =
  r <- validate_optional_body d k ;;
  match r with
  | Some b => ret b
  | None => validate_optional d ks
  end.
Proof. reflexivity. Qed.

(** An optional key that is not in the data mapping is passed over. *)
Lemma optional_body_absent (d : dict) (k : descriptor) :
  present d k = false -> validate_optional_body d k = ret None.
Proof.
  unfold present. intros H.
  rewrite validate_optional_body_eq. unfold optional_body. now rewrite H.
Qed.

(** So is one of the expected type that has no nested list to descend
    into. *)
Lemma optional_body_plain (d : dict) (k : descriptor) :
  well_typed d k = true ->
  (param_type k = TDict -> optional_keys k = None) ->
  validate_optional_body d k = ret None.
Proof.
  intros Ht Hn. destruct (well_typed_lookup _ _ Ht) as (v & Hv & Hi).
  rewrite validate_optional_body_eq. unfold optional_body, contains.
  rewrite Hv, (getitem_Some _ _ _ Hv), bind_ret, Hi. simpl negb. cbv iota.
  destruct (pytype_eqb (param_type k) TDict) eqn:E; [| reflexivity].
  apply pytype_eqb_eq in E. now rewrite (Hn E).
Qed.

Lemma optional_body_nested (d : dict) (k : descriptor)
  (nested : list descriptor) (nested_object : dict) :
  param_type k = TDict ->
  optional_keys k = Some nested ->
  lookup (param_name k) d = Some (VDict nested_object) ->
  validate_optional_body d k =
  b <- validate_optional nested_object nested ;; ret (Some b).
Proof.
  intros Ht Hn Hv.
  rewrite validate_optional_body_eq. unfold optional_body, contains.
  rewrite Hv, (getitem_Some _ _ _ Hv), !bind_ret, Ht, Hn.
  simpl isinstance. simpl pytype_eqb. simpl negb. cbv iota.
  rewrite bind_ret. simpl as_dict. now rewrite bind_ret.
Qed.

(** C8.  Let [k] be the first descriptor of the list that is present in the
    data mapping, is dict-typed and has its own ["optional_keys"] list, let
    the optional keys before it that are present have their expected types,
    and let the value under [k] be a mapping.  Then [validate_optional]
    returns just what the recursive call on that mapping and that list
    returns, log and result: the descriptors after [k] have no part in it. *)
Theorem first_nested_optional_verdict_is_final (d : dict)
  (before : list descriptor) (k : descriptor) (after nested : list descriptor)
  (nested_object : dict) :
  (forall p, In p before -> present d p = true -> well_typed d p = true) ->
  (forall p, In p before -> present d p = true -> param_type p = TDict ->
             optional_keys p = None) ->
  param_type k = TDict ->
  optional_keys k = Some nested ->
  lookup (param_name k) d = Some (VDict nested_object) ->
  validate_optional d (before ++ k :: after)
  = validate_optional nested_object nested.
Proof.
  intros Htyped Hfirst Ht Hn Hv.
  induction before as [| p before IH]; simpl app; rewrite validate_optional_cons.
  - rewrite (optional_body_nested _ _ _ _ Ht Hn Hv).
    destruct (validate_optional nested_object nested) as [l [b | e]];
      unfold bind, ret; simpl; now rewrite ?app_nil_r.
  - assert (Hp : validate_optional_body d p = ret None).
    { destruct (present d p) eqn:E.
      - apply optional_body_plain.
        + apply Htyped; [now left | exact E].
        + apply Hfirst; [now left | exact E].
      - now apply optional_body_absent. }
    rewrite Hp, bind_ret. apply IH.
    + intros q Hq. apply Htyped. now right.
    + intros q Hq. apply Hfirst. now right.
Qed.

Lemma first_nested_optional_verdict_is_final_witness :
  (forall p, In p [Samples.key "level" TInt] ->
             present Samples.opts_data p = true ->
             well_typed Samples.opts_data p = true) /\
  (forall p, In p [Samples.key "level" TInt] ->
             present Samples.opts_data p = true ->
             param_type p = TDict -> optional_keys p = None) /\
  validate_optional Samples.opts_data Samples.level_opts_count
  = validate_optional [("depth", VInt 3)] [Samples.key "depth" TInt].
Proof.
  assert (H1 : forall p, In p [Samples.key "level" TInt] ->
                         present Samples.opts_data p = true ->
                         well_typed Samples.opts_data p = true).
  { intros p [<- | []] _. reflexivity. }
  assert (H2 : forall p, In p [Samples.key "level" TInt] ->
                         present Samples.opts_data p = true ->
                         param_type p = TDict -> optional_keys p = None).
  { intros p [<- | []] _ _. reflexivity. }
  split; [exact H1 | split; [exact H2 |]].
  exact (first_nested_optional_verdict_is_final
           Samples.opts_data [Samples.key "level" TInt] Samples.opts_key
           [Samples.key "count" TInt] [Samples.key "depth" TInt]
           [("depth", VInt 3)] H1 H2 eq_refl eq_refl eq_refl).
Defined.

(** Optional keys that are not in the data mapping never make
    [validate_optional] fail. *)
Lemma validate_optional_all_absent (d : dict) (ks : list descriptor) :
  forallb (fun k => negb (present d k)) ks = true ->
  validate_optional d ks = ([], Return true).
Proof.
  induction ks as [| k ks IH]; simpl forallb; intros H; [reflexivity |].
  apply andb_true_iff in H as [Hk Hks]. apply negb_true_iff in Hk.
  now rewrite validate_optional_cons, (optional_body_absent _ _ Hk), bind_ret, IH.
Qed.

Example validate_empty_data_optional_only :
  validate [] [] (Some [Samples.key "x" TInt]) = ([], Return true).
Proof. reflexivity. Qed.

(** Induction on a descriptor through its nested ["optional_keys"]. *)
Lemma descriptor_optional_ind (P : descriptor -> Prop) :
  (forall k,
      match optional_keys k with
      | Some nested => Forall P nested
      | None => True
      end -> P k) ->
  forall k, P k.
Proof.
  intros H. fix self 1. intros k. apply H.
  destruct k as [n t pv ek ck ok]. simpl.
  destruct ok as [nested |]; [| exact I].
  induction nested as [| x xs IH]; constructor; [apply self | exact IH].
Qed.

Lemma spec_optional_ok_eq (d : dict) (k : descriptor) :
  spec_optional_ok d k =
  match lookup (param_name k) d with
  | None => true
  | Some v =>
      isinstance v (param_type k) &&
      if pytype_eqb (param_type k) TDict then
        match optional_keys k, v with
        | Some nested, VDict nested_object =>
            forallb (spec_optional_ok nested_object) nested
        | _, _ => true
        end
      else true
  end.
Proof. now destruct k. Qed.

Lemma validate_optional_accepts (ks : list descriptor) :
  Forall body_accepts ks ->
  forall d, forallb (spec_optional_ok d) ks = true ->
            validate_optional d ks = ([], Return true).
Proof.
  induction 1 as [| k ks Hk _ IH]; intros d Hall; [reflexivity |].
  simpl in Hall. apply andb_true_iff in Hall as [Hok Hrest].
  destruct (Hk d Hok) as (r & Hr & Hne).
  rewrite validate_optional_cons, Hr.
  change ([], Return r) with (ret r). rewrite bind_ret.
  destruct r as [[|] |]; [reflexivity | now elim Hne | now apply IH].
Qed.

Lemma optional_body_accepts (k : descriptor) : body_accepts k.
Proof.
  induction k as [k IH] using descriptor_optional_ind.
  intros d Hok. rewrite spec_optional_ok_eq in Hok.
  destruct (lookup (param_name k) d) as [v |] eqn:Hv.
  - apply andb_true_iff in Hok as [Hi Hnested].
    destruct (pytype_eqb (param_type k) TDict) eqn:Ht.
    + apply pytype_eqb_eq in Ht.
      destruct (optional_keys k) as [nested |] eqn:Hn.
      * rewrite Ht in Hi. destruct (isinstance_dict _ Hi) as [o ->].
        exists (Some true). split; [| discriminate].
        rewrite (optional_body_nested _ _ _ _ Ht Hn Hv).
        now rewrite (validate_optional_accepts _ IH _ Hnested).
      * exists None. split; [| discriminate].
        apply optional_body_plain; [| easy].
        unfold well_typed. now rewrite Hv.
    + exists None. split; [| discriminate].
      apply optional_body_plain.
      * unfold well_typed. now rewrite Hv.
      * intros E. rewrite E in Ht. discriminate Ht.
  - exists None. split; [| discriminate].
    apply optional_body_absent. unfold present, contains. now rewrite Hv.
Qed.

(** One half of the contract holds: a data mapping that satisfies the
    optional list is accepted. *)
Lemma validate_optional_complete (d : dict) (ks : list descriptor) :
  forallb (spec_optional_ok d) ks = true ->
  validate_optional d ks = ([], Return true).
Proof.
  apply validate_optional_accepts, Forall_forall.
  intros k _. apply optional_body_accepts.
Qed.

(** C7 at a failing input.  ["count"] is an optional [int] key; the data
    mapping holds a string under it.  [validate_optional] returns [True] all
    the same: it returns from inside the loop at ["opts"] (line 199), which
    comes before ["count"] in the list, with the verdict of the nested
    call. *)
Theorem validate_optional_misses_later_key :
  In (Samples.key "count" TInt) Samples.level_opts_count /\
  present Samples.opts_data (Samples.key "count" TInt) = true /\
  well_typed Samples.opts_data (Samples.key "count" TInt) = false /\
  forallb (spec_optional_ok Samples.opts_data) Samples.level_opts_count
  = false /\
  validate_optional Samples.opts_data Samples.level_opts_count
  = ([], Return true) /\
  validate Samples.opts_data [] (Some Samples.level_opts_count)
  = ([], Return true).
Proof.
  split; [right; right; left; reflexivity | repeat split].
Qed.

(** ** Permitted values *)

(** The [possible_values] test of a descriptor that the loop gets to. *)
Lemma possible_values_enforced_when_reached (d : dict)
  (before : list descriptor) (k : descriptor) (after : list descriptor)
  (values : list value) (v : value) :
  reaches d before k after = true ->
  possible_values k = Some values ->
  lookup (param_name k) d = Some v ->
  py_in v values = false ->
  validate_expected d (before ++ k :: after)
  = (prefix_log d before ++ ["incorrect expected parameter value"],
     Return false).
Proof.
  intros Hr Hpv Hv Hin.
  rewrite (validate_expected_reaches _ _ _ _ Hr), validate_expected_body_eq.
  unfold expected_body, check_possible_values.
  now rewrite Hpv, (getitem_Some _ _ _ Hv), bind_ret, Hin.
Qed.

Example mode_c_rejected :
  validate [("mode", VStr "c")] [Samples.mode_key] None
  = (["incorrect expected parameter value"], Return false).
Proof. reflexivity. Qed.

Example mode_a_accepted :
  validate [("mode", VStr "a")] [Samples.mode_key] None = ([], Return true).
Proof. reflexivity. Qed.

(** C9 at a failing input.  ["mode"] is a required key with
    [possible_values] ["a"] and ["b"]; the data mapping holds ["c"] under it.
    [validate_expected] and [validate] return [True] all the same: the loop
    returns at the conditional key ["info"] (line 152), which comes before
    ["mode"] in the list, with the verdict of the nested call. *)
Theorem possible_values_missed_after_conditional :
  In Samples.mode_key Samples.kind_info_mode /\
  lookup "mode" Samples.local_mode_data = Some (VStr "c") /\
  py_in (VStr "c") [VStr "a"; VStr "b"] = false /\
  validate_expected Samples.local_mode_data Samples.kind_info_mode
  = ([], Return true) /\
  validate Samples.local_mode_data Samples.kind_info_mode None
  = ([], Return true).
Proof.
  split; [right; right; left; reflexivity | repeat split].
Qed.

Lemma validate_expected_ignores_unknown_keys_witness :
  (forall n, In n (keys [("extra", VInt 1)]) ->
             ~ In n (mentioned [Samples.key "port" TInt])) /\
  validate_expected ([("port", VInt 80)] ++ [("extra", VInt 1)] ++ [])
    [Samples.key "port" TInt]
  = validate_expected ([("port", VInt 80)] ++ []) [Samples.key "port" TInt].
Proof.
  assert (Hextra : forall n, In n (keys [("extra", VInt 1)]) ->
                             ~ In n (mentioned [Samples.key "port" TInt])).
  { simpl. intros n [<- | []] [H | []]. discriminate H. }
  split; [exact Hextra |].
  exact (proj1 (validate_expected_ignores_unknown_keys
                  [("port", VInt 80)] [("extra", VInt 1)] []
                  [Samples.key "port" TInt] Hextra)).
Defined.

(** ** Further properties of the three methods *)

(** *** Outcomes of [validate_optional] *)

Lemma contains_lookup {A : Type} (n : string) (a : list (string * A)) :
  contains n a = true -> exists v, lookup n a = Some v.
Proof.
  unfold contains. destruct (lookup n a) as [v |]; [now exists v | discriminate].
Qed.

Lemma optional_body_outcome (k : descriptor) :
  (match optional_keys k with
   | Some nested =>
       forall d, validate_optional d nested = ([], Return true) \/
                 validate_optional d nested
                 = (["invalid optional parameter type"], Return false)
   | None => True
   end) ->
  forall d,
    validate_optional_body d k = ([], Return None) \/
    validate_optional_body d k = ([], Return (Some true)) \/
    validate_optional_body d k
    = (["invalid optional parameter type"], Return (Some false)).
Proof.
  intros IH d. rewrite validate_optional_body_eq. unfold optional_body.
  destruct (contains (param_name k) d) eqn:Hc; [| now left].
  destruct (contains_lookup _ _ Hc) as [v Hv].
  rewrite (getitem_Some _ _ _ Hv), !bind_ret.
  destruct (isinstance v (param_type k)) eqn:Hi; simpl negb; cbv iota;
    [| now right; right].
  destruct (pytype_eqb (param_type k) TDict) eqn:Ht; [| now left].
  apply pytype_eqb_eq in Ht. rewrite Ht in Hi.
  destruct (isinstance_dict _ Hi) as [o ->].
  destruct (optional_keys k) as [nested |]; [| now left].
  rewrite bind_ret. simpl as_dict. rewrite bind_ret.
  destruct (IH o) as [-> | ->]; [right; left | right; right]; reflexivity.
Qed.

Lemma for_each_optional_outcome (ks : list descriptor) :
  Forall (fun k => forall d,
            validate_optional_body d k = ([], Return None) \/
            validate_optional_body d k = ([], Return (Some true)) \/
            validate_optional_body d k
            = (["invalid optional parameter type"], Return (Some false))) ks ->
  forall d,
    validate_optional d ks = ([], Return true) \/
    validate_optional d ks = (["invalid optional parameter type"], Return false).
Proof.
  induction 1 as [| k ks Hk _ IH]; intros d; [now left |].
  rewrite validate_optional_cons.
  destruct (Hk d) as [-> | [-> | ->]].
  - change ([], Return None) with (@ret (option bool) None).
    rewrite bind_ret. apply IH.
  - now left.
  - now right.
Qed.

Lemma validate_optional_body_outcome (k : descriptor) (d : dict) :
  validate_optional_body d k = ([], Return None) \/
  validate_optional_body d k = ([], Return (Some true)) \/
  validate_optional_body d k
  = (["invalid optional parameter type"], Return (Some false)).
Proof.
  revert d. induction k as [k IH] using descriptor_optional_ind.
  apply optional_body_outcome.
  destruct (optional_keys k) as [nested |]; [| exact I].
  now apply for_each_optional_outcome.
Qed.

Lemma validate_optional_outcome (d : dict) (ks : list descriptor) :
  validate_optional d ks = ([], Return true) \/
  validate_optional d ks = (["invalid optional parameter type"], Return false).
Proof.
  apply for_each_optional_outcome, Forall_forall.
  intros k _ d'. apply validate_optional_body_outcome.
Qed.

(** X1.  [validate_optional] raises neither [KeyError] nor [TypeError],
    whatever the data mapping and the descriptor list: every subscript is
    behind an [in] test, and a value is only descended into after
    [isinstance(_, dict)].  When it returns, it returns [True] with an empty
    log or [False] with the one record ["invalid optional parameter
    type"]. *)
Theorem validate_optional_no_key_or_type_error (d : dict)
  (ks : list descriptor) :
  (forall lg, validate_optional d ks <> (lg, Raise KeyError) /\
              validate_optional d ks <> (lg, Raise TypeError)) /\
  (forall lg b,
      validate_optional d ks = (lg, Return b) ->
      lg = if b then [] else ["invalid optional parameter type"]).
Proof.
  destruct (validate_optional_outcome d ks) as [E | E]; rewrite E; split.
  - intros lg. split; discriminate.
  - intros lg b H. now inversion H.
  - intros lg. split; discriminate.
  - intros lg b H. now inversion H.
Qed.

(** *** One record per [False] *)

(** Induction on a descriptor through the lists [validate_expected] descends
    into. *)
Lemma descriptor_expected_ind (P : descriptor -> Prop) :
  (forall k, sub_expected P k -> P k) -> forall k, P k.
Proof.
  intros H. fix self 1. intros k. apply H.
  destruct k as [n t pv ek ck ok]. unfold sub_expected. simpl. split.
  - destruct ek as [nested |]; [| exact I].
    induction nested as [| x xs IH]; constructor; [apply self | exact IH].
  - destruct ck as [[dep items] |]; [| exact I]. simpl.
    induction items as [| [v [be bo]] items IH]; constructor; [| exact IH].
    simpl. destruct be as [l |]; [| exact I].
    induction l as [| x xs IHl]; constructor; [apply self | exact IHl].
Qed.

Lemma tidy_optional (d : dict) (ks : list descriptor) :
  tidy (validate_optional d ks).
Proof.
  destruct (validate_optional_outcome d ks) as [-> | ->]; simpl; [reflexivity |].
  exists "invalid optional parameter type". split; [| reflexivity].
  simpl. tauto.
Qed.

Lemma tidy_body_continue (m k : M (option bool)) :
  tidy_body m -> tidy_body k ->
  tidy_body (r <- m ;;
             match r with
             | Some b => ret (Some b)
             | None => k
             end).
Proof.
  destruct m as [lg [[[|] |] | e]]; simpl; intros Hm Hk.
  - subst. reflexivity.
  - destruct Hm as (msg & Hin & ->). now exists msg.
  - subst. destruct k as [lg' r]. exact Hk.
  - exact Hm.
Qed.

Lemma tidy_for_each body (ks : list descriptor) :
  Forall (fun k => forall d, tidy_body (body d k)) ks ->
  forall d, tidy (for_each body d ks).
Proof.
  induction 1 as [| k ks Hk _ IH]; intros d; [reflexivity |].
  rewrite for_each_cons. specialize (Hk d). specialize (IH d).
  destruct (body d k) as [lg [[[|] |] | e]]; simpl in Hk |- *.
  - subst. reflexivity.
  - destruct Hk as (msg & Hin & ->). now exists msg.
  - subst. destruct (for_each body d ks) as [lg' r]. exact IH.
  - exact Hk.
Qed.

Lemma tidy_validate_expected_with body (ks : list descriptor) :
  Forall (fun k => forall d, tidy_body (body d k)) ks ->
  forall d, tidy (validate_expected_with body d ks).
Proof.
  intros H d. rewrite validate_expected_with_eq.
  destruct (forallb (present d) ks); simpl negb; cbv iota.
  - destruct (forallb (well_typed d) ks); simpl negb; cbv iota.
    + now apply tidy_for_each.
    + exists "incorrect expected parameter type". simpl. tauto.
  - exists "missing expected parameter". simpl. tauto.
Qed.

Lemma tidy_validate_with ve (d : dict) (ks : list descriptor)
  (os : option (list descriptor)) :
  tidy (ve d ks) -> tidy (validate_with ve d ks os).
Proof.
  intros H. rewrite validate_with_eq.
  destruct (forallb _ (keys d)); simpl negb; cbv iota.
  - destruct (ve d ks) as [lg [[|] | e]]; simpl in H |- *.
    + subst. destruct os as [o |]; [| reflexivity].
      pose proof (tidy_optional d o) as Ho.
      destruct (validate_optional d o) as [lg' [[|] | e]]; simpl in Ho |- *.
      * subst. reflexivity.
      * destruct Ho as (msg & Hin & ->). now exists msg.
      * exact Ho.
    + destruct H as (msg & Hin & ->). now exists msg.
    + exact H.
  - exists "invalid parameter detected". simpl. tauto.
Qed.

Lemma tidy_check_possible_values (d : dict) (k : descriptor) :
  tidy_body (check_possible_values d k).
Proof.
  unfold check_possible_values, getitem.
  destruct (possible_values k) as [values |]; [| reflexivity].
  destruct (lookup (param_name k) d) as [v |]; [| reflexivity].
  rewrite bind_ret. destruct (py_in v values); simpl; [reflexivity |].
  exists "incorrect expected parameter value". simpl. tauto.
Qed.

Lemma tidy_check_nested_expected ve (d : dict) (k : descriptor) :
  (forall nested, expected_keys k = Some nested ->
                  forall o, tidy (ve o nested)) ->
  tidy_body (check_nested_expected ve d k).
Proof.
  intros H. unfold check_nested_expected, getitem.
  destruct (expected_keys k) as [nested |]; [| reflexivity].
  destruct (lookup (param_name k) d) as [v |]; [| reflexivity].
  rewrite bind_ret. destruct v; try reflexivity.
  simpl as_dict. rewrite bind_ret.
  specialize (H nested eq_refl d0).
  destruct (ve d0 nested) as [lg [[|] | e]]; simpl in H |- *.
  - subst. reflexivity.
  - destruct H as (msg & Hin & ->). now exists msg.
  - exact H.
Qed.

Lemma lookup_branch_In (v : value) (items : list (value * branch))
  (info : branch) :
  lookup_branch v items = Some info -> exists k, In (k, info) items.
Proof.
  induction items as [| [k i] items IH]; simpl; [discriminate |].
  destruct (py_eq k v).
  - intros H. inversion H; subst. exists k. now left.
  - intros H. destruct (IH H) as [k' Hk']. exists k'. now right.
Qed.

Lemma tidy_check_conditional va (d : dict) (k : descriptor) (ck : conditional) :
  (forall key info l, In (key, info) (dependence_info ck) ->
                      branch_expected_keys info = Some l ->
                      forall o os, tidy (va o l os)) ->
  tidy_body (check_conditional va d k ck).
Proof.
  intros H. rewrite check_conditional_eq. unfold getitem.
  destruct (lookup (depends_on ck) d) as [v |]; [| reflexivity].
  rewrite bind_ret. destruct (hashable v); [| reflexivity].
  simpl negb. cbv iota.
  destruct (lookup_branch v (dependence_info ck)) as [info |] eqn:Hb;
    [| reflexivity].
  destruct (lookup_branch_In _ _ _ Hb) as [key Hin].
  destruct (branch_optional_keys info) as [no |]; [| reflexivity].
  destruct (branch_expected_keys info) as [ne |] eqn:He; [| reflexivity].
  destruct (lookup (param_name k) d) as [w |]; [| reflexivity].
  rewrite bind_ret. destruct w; try reflexivity.
  simpl as_dict. rewrite bind_ret.
  specialize (H key info ne Hin He d0 (Some no)).
  destruct (va d0 ne (Some no)) as [lg [[|] | e]]; simpl in H |- *.
  - subst. reflexivity.
  - destruct H as (msg & Hm & ->). now exists msg.
  - exact H.
Qed.

Lemma tidy_validate_expected_body (k : descriptor) (d : dict) :
  tidy_body (validate_expected_body d k).
Proof.
  revert d. induction k as [k [IHe IHc]] using descriptor_expected_ind.
  intros d. rewrite validate_expected_body_eq. unfold expected_body.
  apply tidy_body_continue; [apply tidy_check_possible_values |].
  destruct (pytype_eqb (param_type k) TDict); [| reflexivity].
  apply tidy_body_continue.
  - apply tidy_check_nested_expected. intros nested Hn o.
    rewrite Hn in IHe. now apply tidy_validate_expected_with.
  - destruct (conditional_keys k) as [ck |]; [| reflexivity].
    apply tidy_check_conditional. intros key info l Hin Hl o os.
    apply tidy_validate_with, tidy_validate_expected_with.
    rewrite Forall_forall in IHc. specialize (IHc _ Hin). simpl in IHc.
    now rewrite Hl in IHc.
Qed.

Lemma tidy_validate_expected (d : dict) (ks : list descriptor) :
  tidy (validate_expected d ks).
Proof.
  apply tidy_validate_expected_with, Forall_forall.
  intros k _ d'. apply tidy_validate_expected_body.
Qed.

(** X2.  [validate_expected] logs exactly one record when it returns
    [False], and nothing when it returns [True] or raises; the record is one
    of the five of the source. *)
Theorem validate_expected_one_record_per_failure (d : dict)
  (ks : list descriptor) :
  tidy (validate_expected d ks).
Proof. apply tidy_validate_expected. Qed.

(** X3.  [validate] logs exactly one record when it returns [False], and
    nothing when it returns [True] or raises. *)
Theorem validate_one_record_per_failure (d : dict) (ks : list descriptor)
  (os : option (list descriptor)) :
  tidy (validate d ks os).
Proof. apply tidy_validate_with, tidy_validate_expected. Qed.

(** *** Schemas without conditional keys *)

Lemma expected_ok_eq (d : dict) (k : descriptor) :
  expected_ok d k =
  match lookup (param_name k) d with
  | None => false
  | Some v =>
      isinstance v (param_type k) &&
      match possible_values k with
      | Some values => py_in v values
      | None => true
      end &&
      if pytype_eqb (param_type k) TDict then
        match expected_keys k, v with
        | Some nested, VDict nested_object =>
            forallb (expected_ok nested_object) nested
        | _, _ => true
        end
      else true
  end.
Proof. now destruct k. Qed.

Lemma no_conditional_eq (k : descriptor) :
  no_conditional k =
  match conditional_keys k with
  | Some _ => false
  | None => true
  end &&
  match expected_keys k with
  | Some nested => forallb no_conditional nested
  | None => true
  end.
Proof. now destruct k. Qed.

Lemma expected_ok_present (d : dict) (k : descriptor) :
  present d k = false -> expected_ok d k = false.
Proof.
  unfold present, contains. rewrite expected_ok_eq.
  now destruct (lookup (param_name k) d).
Qed.

Lemma expected_ok_well_typed (d : dict) (k : descriptor) :
  well_typed d k = false -> expected_ok d k = false.
Proof.
  unfold well_typed. rewrite expected_ok_eq.
  destruct (lookup (param_name k) d) as [v |]; [| reflexivity].
  now intros ->.
Qed.

Lemma forallb_false_of {A : Type} (f g : A -> bool) (l : list A) :
  (forall x, f x = false -> g x = false) ->
  forallb f l = false -> forallb g l = false.
Proof.
  intros H. induction l as [| x l IH]; simpl; [easy |].
  destruct (f x) eqn:E; simpl.
  - intros Hl. rewrite (IH Hl). apply andb_false_r.
  - intros _. now rewrite (H x E).
Qed.

Lemma for_each_decides (ks : list descriptor) :
  Forall body_decides ks ->
  forallb no_conditional ks = true ->
  forall d,
    forallb (present d) ks = true ->
    forallb (well_typed d) ks = true ->
    exists lg, for_each validate_expected_body d ks
               = (lg, Return (forallb (expected_ok d) ks)).
Proof.
  induction 1 as [| k ks Hk _ IH]; simpl forallb; intros Hn d Hp Ht.
  - now exists [].
  - apply andb_true_iff in Hn as [Hnk Hn].
    apply andb_true_iff in Hp as [Hpk Hp].
    apply andb_true_iff in Ht as [Htk Ht].
    destruct (Hk Hnk d Hpk Htk) as [lg Hb].
    rewrite for_each_cons, Hb, bind_Return.
    destruct (expected_ok d k); simpl.
    + destruct (IH Hn d Hp Ht) as [lg' ->]. simpl. now eexists.
    + now eexists.
Qed.

Lemma validate_expected_decides (ks : list descriptor) :
  Forall body_decides ks ->
  forallb no_conditional ks = true ->
  forall d, exists lg,
    validate_expected d ks = (lg, Return (forallb (expected_ok d) ks)).
Proof.
  intros H Hn d. unfold validate_expected. rewrite validate_expected_with_eq.
  destruct (forallb (present d) ks) eqn:Hp; simpl negb; cbv iota.
  - destruct (forallb (well_typed d) ks) eqn:Ht; simpl negb; cbv iota.
    + now apply for_each_decides.
    + rewrite (forallb_false_of _ _ _ (expected_ok_well_typed d) Ht).
      now eexists.
  - rewrite (forallb_false_of _ _ _ (expected_ok_present d) Hp).
    now eexists.
Qed.

Lemma validate_expected_body_decides (k : descriptor) : body_decides k.
Proof.
  induction k as [k [IHe _]] using descriptor_expected_ind.
  intros Hn d Hp Ht.
  rewrite no_conditional_eq in Hn. apply andb_true_iff in Hn as [Hck Hne].
  destruct (conditional_keys k) as [ck |] eqn:Eck; [discriminate |].
  destruct (well_typed_lookup _ _ Ht) as (v & Hv & Hi).
  rewrite validate_expected_body_eq, expected_ok_eq, Hv, Hi.
  unfold expected_body, check_possible_values, check_nested_expected.
  rewrite Eck, (getitem_Some _ _ _ Hv). simpl andb.
  destruct (possible_values k) as [values |].
  - rewrite bind_ret. destruct (py_in v values); simpl negb; cbv iota.
    + change (@ret (option bool) None) with (@pair (list string) _ [] (@Return (option bool) None)).
      rewrite bind_Return. simpl andb.
      destruct (pytype_eqb (param_type k) TDict) eqn:Etd.
      * apply pytype_eqb_eq in Etd. rewrite Etd in Hi.
        destruct (isinstance_dict _ Hi) as [o ->].
        destruct (expected_keys k) as [nested |].
        -- rewrite bind_ret. simpl as_dict. rewrite bind_ret.
           destruct (validate_expected_decides nested IHe Hne o) as [lg ->].
           destruct (forallb (expected_ok o) nested); simpl; now eexists.
        -- simpl. now eexists.
      * simpl. now eexists.
    + simpl. now eexists.
  - rewrite bind_ret. simpl andb.
    destruct (pytype_eqb (param_type k) TDict) eqn:Etd.
    + apply pytype_eqb_eq in Etd. rewrite Etd in Hi.
      destruct (isinstance_dict _ Hi) as [o ->].
      destruct (expected_keys k) as [nested |].
      * rewrite bind_ret. simpl as_dict. rewrite bind_ret.
        destruct (validate_expected_decides nested IHe Hne o) as [lg ->].
        destruct (forallb (expected_ok o) nested); simpl; now eexists.
      * simpl. now eexists.
    + simpl. now eexists.
Qed.

Lemma validate_expected_conditional_free (d : dict) (ks : list descriptor) :
  forallb no_conditional ks = true ->
  exists lg, validate_expected d ks = (lg, Return (forallb (expected_ok d) ks)).
Proof.
  intros Hn. apply validate_expected_decides; [| exact Hn].
  apply Forall_forall. intros k _. apply validate_expected_body_decides.
Qed.

(** X4.  On a descriptor list without ["conditional_keys"], at any depth of
    nested ["expected_keys"], [validate_expected] raises neither [KeyError]
    nor [TypeError], and the verdict it returns is exact: [True] when every
    descriptor is satisfied (the key is in the mapping, its value has the
    type and is among the ["possible_values"], and the same holds of the
    nested list in the mapping under a dict-typed key), [False] when one is
    not. *)
Theorem validate_expected_exact_without_conditionals (d : dict)
  (ks : list descriptor) :
  forallb no_conditional ks = true ->
  (forall lg, validate_expected d ks <> (lg, Raise KeyError) /\
              validate_expected d ks <> (lg, Raise TypeError)) /\
  (forall lg b,
      validate_expected d ks = (lg, Return b) ->
      b = forallb (expected_ok d) ks).
Proof.
  intros Hn.
  destruct (validate_expected_conditional_free d ks Hn) as [lg0 E].
  rewrite E. split.
  - intros lg. split; discriminate.
  - intros lg b H. now inversion H.
Qed.

Lemma validate_expected_exact_without_conditionals_witness :
  forallb no_conditional [Samples.cfg_debug_key; Samples.mode_key] = true /\
  validate_expected
    [("cfg", VDict [("port", VStr "80")]); ("mode", VStr "a")]
    [Samples.cfg_debug_key; Samples.mode_key]
  = (["incorrect expected parameter type"], Return false) /\
  false
  = forallb
      (expected_ok [("cfg", VDict [("port", VStr "80")]); ("mode", VStr "a")])
      [Samples.cfg_debug_key; Samples.mode_key].
Proof.
  split; [reflexivity | split; [reflexivity |]].
  exact (proj2
           (validate_expected_exact_without_conditionals
              [("cfg", VDict [("port", VStr "80")]); ("mode", VStr "a")]
              [Samples.cfg_debug_key; Samples.mode_key] eq_refl)
           ["incorrect expected parameter type"] false eq_refl).
Defined.




(** *** Optional lists without nesting *)

Lemma optional_body_plain_decides (d : dict) (k : descriptor) :
  plain_optional k = true ->
  validate_optional_body d k =
  if spec_optional_ok d k then ([], Return None)
  else (["invalid optional parameter type"], Return (Some false)).
Proof.
  unfold plain_optional. intros Hpl.
  rewrite validate_optional_body_eq, spec_optional_ok_eq.
  unfold optional_body, contains, getitem.
  destruct (lookup (param_name k) d) as [v |]; [| reflexivity].
  rewrite bind_ret.
  destruct (isinstance v (param_type k)); simpl negb; cbv iota; simpl andb;
    [| reflexivity].
  destruct (pytype_eqb (param_type k) TDict); [| reflexivity].
  destruct (optional_keys k); [discriminate Hpl | reflexivity].
Qed.

Lemma validate_optional_plain (d : dict) (ks : list descriptor) :
  forallb plain_optional ks = true ->
  validate_optional d ks =
  if forallb (spec_optional_ok d) ks then ([], Return true)
  else (["invalid optional parameter type"], Return false).
Proof.
  induction ks as [| k ks IH]; simpl forallb; intros H; [reflexivity |].
  apply andb_true_iff in H as [Hk Hks].
  rewrite validate_optional_cons, (optional_body_plain_decides _ _ Hk).
  destruct (spec_optional_ok d k); simpl andb; [| reflexivity].
  change ([], Return None) with (@ret (option bool) None).
  rewrite bind_ret. now apply IH.
Qed.

(** X6.  On an optional list in which no dict-typed descriptor has its own
    ["optional_keys"], [validate_optional] returns [True] exactly when every
    optional key that is present has its expected type, and [False] with the
    one record of the type test otherwise. *)
Theorem validate_optional_exact_without_nesting (d : dict)
  (ks : list descriptor) :
  forallb plain_optional ks = true ->
  validate_optional d ks =
  if forallb (spec_optional_ok d) ks then ([], Return true)
  else (["invalid optional parameter type"], Return false).
Proof. apply validate_optional_plain. Qed.

Lemma validate_optional_exact_without_nesting_witness :
  forallb plain_optional [Samples.key "level" TInt; Samples.key "count" TInt]
  = true /\
  validate_optional Samples.opts_data
    [Samples.key "level" TInt; Samples.key "count" TInt]
  = (["invalid optional parameter type"], Return false).
Proof.
  split; [reflexivity |].
  exact (validate_optional_exact_without_nesting Samples.opts_data
           [Samples.key "level" TInt; Samples.key "count" TInt] eq_refl).
Defined.




(** *** At a conditional key *)

Lemma prefix_log_nil (d : dict) (before : list descriptor) :
  forallb (falls_through d) before = true -> prefix_log d before = [].
Proof.
  induction before as [| k before IH]; simpl; [reflexivity |].
  intros H. apply andb_true_iff in H as [Hk Hb]. rewrite (IH Hb), app_nil_r.
  pose proof (tidy_validate_expected_body k d) as Ht.
  unfold falls_through in Hk.
  destruct (validate_expected_body d k) as [lg [[b |] | e]];
    try discriminate Hk.
  exact Ht.
Qed.

(** What [validate_expected] returns once its loop is at the
    ["conditional_keys"] of [k]. *)
Lemma validate_expected_at_conditional (d : dict) (before : list descriptor)
  (k : descriptor) (after : list descriptor) (ck : conditional) :
  reaches_conditional d before k after = true ->
  conditional_keys k = Some ck ->
  validate_expected d (before ++ k :: after) =
  r <- check_conditional validate d k ck ;;
  match r with
  | Some b => ret b
  | None => for_each validate_expected_body d after
  end.
Proof.
  unfold reaches_conditional. intros H Hck.
  apply andb_true_iff in H as [H Hne]. apply andb_true_iff in H as [H Hpv].
  apply andb_true_iff in H as [Hr Ht]. apply pytype_eqb_eq in Ht.
  pose proof (tidy_check_possible_values d k) as Tpv.
  destruct (check_possible_values d k) as [l0 [[b |] | e]] eqn:Epv;
    try discriminate Hpv.
  simpl in Tpv. subst l0.
  pose proof (tidy_check_nested_expected validate_expected d k
                (fun nested _ o => tidy_validate_expected o nested)) as Tne.
  destruct (check_nested_expected validate_expected d k)
    as [l1 [[b |] | e]] eqn:Ene; try discriminate Hne.
  simpl in Tne. subst l1.
  rewrite (validate_expected_reaches _ _ _ _ Hr).
  rewrite (expected_body_after_nested _ _ _ Ht Epv Ene), Hck.
  unfold reaches in Hr. apply andb_true_iff in Hr as [_ Hf].
  now rewrite (prefix_log_nil _ _ Hf), !prepend_nil.
Qed.

(** X8.  When the loop of [validate_expected] is at the ["conditional_keys"]
    of a descriptor and the data mapping has no item under the [depends_on]
    key, the subscript of line 146 raises [KeyError]: the method does not
    return a verdict. *)
Theorem missing_depends_on_key_raises (d : dict) (before : list descriptor)
  (k : descriptor) (after : list descriptor) (ck : conditional) :
  reaches_conditional d before k after = true ->
  conditional_keys k = Some ck ->
  lookup (depends_on ck) d = None ->
  validate_expected d (before ++ k :: after) = ([], Raise KeyError).
Proof.
  intros Hr Hck Hdep.
  rewrite (validate_expected_at_conditional _ _ _ _ _ Hr Hck).
  rewrite check_conditional_eq. unfold getitem. now rewrite Hdep.
Qed.

Lemma missing_depends_on_key_raises_witness :
  reaches_conditional [("info", VDict [])] [] Samples.info_key [] = true /\
  lookup "kind" [("info", VDict [])] = None /\
  validate_expected [("info", VDict [])] ([] ++ [Samples.info_key])
  = ([], Raise KeyError).
Proof.
  split; [reflexivity | split; [reflexivity |]].
  exact (missing_depends_on_key_raises [("info", VDict [])] [] Samples.info_key []
           (Conditional "kind"
              [(VStr "local", Samples.local_branch);
               (VStr "remote", Samples.remote_branch)])
           eq_refl eq_refl eq_refl).
Defined.

(** X9.  An entry of [dependence_info] must hold both ["expected_keys"] and
    ["optional_keys"]: when the entry selected by the value of the
    [depends_on] key lacks one of them, [validate_expected] raises
    [KeyError] (lines 149-150), whatever the nested mapping holds. *)
Theorem incomplete_branch_raises (d : dict) (before : list descriptor)
  (k : descriptor) (after : list descriptor) (ck : conditional)
  (v : value) (info : branch) :
  reaches_conditional d before k after = true ->
  conditional_keys k = Some ck ->
  lookup (depends_on ck) d = Some v ->
  hashable v = true ->
  lookup_branch v (dependence_info ck) = Some info ->
  branch_expected_keys info = None \/ branch_optional_keys info = None ->
  validate_expected d (before ++ k :: after) = ([], Raise KeyError).
Proof.
  intros Hr Hck Hdep Hh Hb Hmiss.
  rewrite (validate_expected_at_conditional _ _ _ _ _ Hr Hck).
  rewrite check_conditional_eq, (getitem_Some _ _ _ Hdep), bind_ret, Hh, Hb.
  simpl negb. cbv iota.
  destruct (branch_optional_keys info) as [no |]; [| reflexivity].
  destruct Hmiss as [-> | Hno]; [reflexivity | discriminate Hno].
Qed.

Lemma incomplete_branch_raises_witness :
  reaches_conditional Samples.local_data [Samples.key "kind" TStr]
    Samples.required_only_key [] = true /\
  lookup "kind" Samples.local_data = Some (VStr "local") /\
  validate_expected Samples.local_data
    ([Samples.key "kind" TStr] ++ [Samples.required_only_key])
  = ([], Raise KeyError).
Proof.
  split; [reflexivity | split; [reflexivity |]].
  exact (incomplete_branch_raises Samples.local_data
           [Samples.key "kind" TStr] Samples.required_only_key []
           (Conditional "kind"
              [(VStr "local", Branch (Some [Samples.key "path" TStr]) None)])
           (VStr "local") (Branch (Some [Samples.key "path" TStr]) None)
           eq_refl eq_refl eq_refl eq_refl eq_refl (or_intror eq_refl)).
Defined.

(** X10.  Under a conditional key the nested mapping goes through
    [validate], so an unknown key in it is rejected: when the selected entry
    names neither [n] as a required nor as an optional key and the nested
    mapping has an item under [n], [validate_expected] returns [False] with
    the record of the unknown-key test. *)
Theorem conditional_rejects_nested_unknown_key (d : dict)
  (before : list descriptor) (k : descriptor) (after : list descriptor)
  (ck : conditional) (v : value) (info : branch)
  (nested_expected_keys nested_optional_keys : list descriptor)
  (nested_object : dict) (n : string) :
  reaches_conditional d before k after = true ->
  conditional_keys k = Some ck ->
  lookup (depends_on ck) d = Some v ->
  hashable v = true ->
  lookup_branch v (dependence_info ck) = Some info ->
  branch_expected_keys info = Some nested_expected_keys ->
  branch_optional_keys info = Some nested_optional_keys ->
  lookup (param_name k) d = Some (VDict nested_object) ->
  In n (keys nested_object) ->
  ~ In n (valid_keys nested_expected_keys (Some nested_optional_keys)) ->
  validate_expected d (before ++ k :: after)
  = (["invalid parameter detected"], Return false).
Proof.
  intros Hr Hck Hdep Hh Hb He Ho Hv Hin Hnot.
  rewrite (validate_expected_at_conditional _ _ _ _ _ Hr Hck).
  rewrite check_conditional_eq, (getitem_Some _ _ _ Hdep), bind_ret, Hh, Hb.
  simpl negb. cbv iota.
  rewrite Ho, He, (getitem_Some _ _ _ Hv), bind_ret. simpl as_dict.
  rewrite bind_ret. unfold validate.
  rewrite validate_with_eq, (unknown_key_detected _ _ _ _ Hin Hnot).
  reflexivity.
Qed.

Lemma conditional_rejects_nested_unknown_key_witness :
  reaches_conditional
    [("kind", VStr "local");
     ("info", VDict [("path", VStr "/tmp"); ("extra", VInt 1)])]
    [Samples.key "kind" TStr] Samples.info_key [] = true /\
  In "extra" (keys [("path", VStr "/tmp"); ("extra", VInt 1)]) /\
  ~ In "extra" (valid_keys [Samples.key "path" TStr] (Some [])) /\
  validate_expected
    [("kind", VStr "local");
     ("info", VDict [("path", VStr "/tmp"); ("extra", VInt 1)])]
    ([Samples.key "kind" TStr] ++ [Samples.info_key])
  = (["invalid parameter detected"], Return false).
Proof.
  assert (Hin : In "extra" (keys [("path", VStr "/tmp"); ("extra", VInt 1)])).
  { right. left. reflexivity. }
  assert (Hnot : ~ In "extra" (valid_keys [Samples.key "path" TStr] (Some []))).
  { simpl. intros [H | []]. discriminate H. }
  split; [reflexivity | split; [exact Hin | split; [exact Hnot |]]].
  exact (conditional_rejects_nested_unknown_key
           [("kind", VStr "local");
            ("info", VDict [("path", VStr "/tmp"); ("extra", VInt 1)])]
           [Samples.key "kind" TStr] Samples.info_key []
           (Conditional "kind"
              [(VStr "local", Samples.local_branch);
               (VStr "remote", Samples.remote_branch)])
           (VStr "local") Samples.local_branch
           [Samples.key "path" TStr] []
           [("path", VStr "/tmp"); ("extra", VInt 1)] "extra"
           eq_refl eq_refl eq_refl eq_refl eq_refl eq_refl eq_refl eq_refl
           Hin Hnot).
Defined.

(** *** The optional list of [validate] *)

(** X11.  Leaving out the optional list ([optional_keys=None]) and passing
    an empty one give the same log and result. *)
Theorem validate_no_optional_list_is_empty_list (d : dict)
  (ks : list descriptor) :
  validate d ks None = validate d ks (Some []).
Proof.
  unfold validate. rewrite !validate_with_eq.
  unfold valid_keys. simpl map. rewrite app_nil_r.
  destruct (forallb _ (keys d)); [| reflexivity]. simpl negb. cbv iota.
  destruct (validate_expected d ks) as [lg [[|] | e]]; reflexivity.
Qed.

(** *** The empty mapping *)

(** X12.  On the empty data mapping [validate_optional] returns [True];
    [validate_expected] and [validate] return [True] when there is no
    required descriptor, and [False] for a missing parameter otherwise. *)
Theorem empty_mapping_valid_iff_nothing_required (ks : list descriptor)
  (os : option (list descriptor)) (o : list descriptor) :
  validate_optional [] o = ([], Return true) /\
  validate_expected [] ks
  = match ks with
    | [] => ([], Return true)
    | _ :: _ => (["missing expected parameter"], Return false)
    end /\
  validate [] ks os
  = match ks with
    | [] => ([], Return true)
    | _ :: _ => (["missing expected parameter"], Return false)
    end.
Proof.
  assert (Ho : forall o', validate_optional [] o' = ([], Return true)).
  { intros o'. apply validate_optional_all_absent.
    apply forallb_forall. intros k _. reflexivity. }
  assert (He : validate_expected [] ks
               = match ks with
                 | [] => ([], Return true)
                 | _ :: _ => (["missing expected parameter"], Return false)
                 end).
  { destruct ks as [| k ks]; [reflexivity |].
    unfold validate_expected. now rewrite validate_expected_with_eq. }
  split; [apply Ho | split; [exact He |]].
  unfold validate. rewrite validate_with_eq, He.
  destruct ks as [| k ks]; [| reflexivity].
  simpl keys. simpl forallb. simpl negb. cbv iota.
  change ([], Return true) with (ret true) at 1. rewrite bind_ret.
  destruct os as [o' |]; [| reflexivity].
  now rewrite Ho.
Qed.

(** *** What is not looked at *)

Lemma for_each_ext body (d : dict) (ks ks' : list descriptor) :
  Forall2 (fun k k' => body d k = body d k') ks ks' ->
  for_each body d ks = for_each body d ks'.
Proof.
  induction 1 as [| k k' ks ks' Hk _ IH]; [reflexivity |].
  now rewrite !for_each_cons, Hk, IH.
Qed.

Lemma validate_optional_body_only_type (d : dict) (k : descriptor) :
  validate_optional_body d (only_type k) = validate_optional_body d k.
Proof. now rewrite !validate_optional_body_eq. Qed.

(** X13.  [validate_optional] checks types only: the ["possible_values"],
    ["expected_keys"] and ["conditional_keys"] of an optional descriptor are
    never looked at, so taking them out changes neither log nor result. *)
Theorem validate_optional_checks_types_only (d : dict) (ks : list descriptor) :
  validate_optional d (map only_type ks) = validate_optional d ks.
Proof.
  apply for_each_ext.
  induction ks as [| k ks IH]; constructor; [| exact IH].
  apply validate_optional_body_only_type.
Qed.

Lemma validate_expected_body_without_nesting (d : dict) (k : descriptor) :
  param_type k <> TDict ->
  validate_expected_body d (without_nesting k) = validate_expected_body d k.
Proof.
  intros Ht. rewrite !validate_expected_body_eq. unfold expected_body.
  change (check_possible_values d (without_nesting k))
    with (check_possible_values d k).
  change (param_type (without_nesting k)) with (param_type k).
  destruct (pytype_eqb (param_type k) TDict) eqn:E; [| reflexivity].
  apply pytype_eqb_eq in E. contradiction.
Qed.

Lemma forallb_ext_app {A : Type} (f : A -> bool) (l1 l2 : list A) (x y : A) :
  f x = f y -> forallb f (l1 ++ x :: l2) = forallb f (l1 ++ y :: l2).
Proof. intros H. rewrite !forallb_app. simpl. now rewrite H. Qed.

(** X14.  The nested ["expected_keys"] and the ["conditional_keys"] of a
    required descriptor whose type is not [dict] are never looked at (line
    132): [validate_expected] gives the same log and result with and without
    them. *)
Theorem nesting_ignored_on_non_dict_key (d : dict) (before : list descriptor)
  (k : descriptor) (after : list descriptor) :
  param_type k <> TDict ->
  validate_expected d (before ++ without_nesting k :: after)
  = validate_expected d (before ++ k :: after).
Proof.
  intros Ht. unfold validate_expected. rewrite !validate_expected_with_eq.
  rewrite (forallb_ext_app (present d) before after (without_nesting k) k eq_refl).
  rewrite (forallb_ext_app (well_typed d) before after (without_nesting k) k eq_refl).
  destruct (forallb (present d) (before ++ k :: after)); [| reflexivity].
  destruct (forallb (well_typed d) (before ++ k :: after)); [| reflexivity].
  simpl negb. cbv iota. apply for_each_ext.
  apply Forall2_app.
  - induction before; constructor; [reflexivity | assumption].
  - constructor.
    + now apply validate_expected_body_without_nesting.
    + induction after; constructor; [reflexivity | assumption].
Qed.

Lemma nesting_ignored_on_non_dict_key_witness :
  param_type (Descriptor "mode" TStr None (Some [Samples.key "port" TInt])
                None None) <> TDict /\
  validate_expected [("mode", VStr "a")]
    ([] ++ [without_nesting
              (Descriptor "mode" TStr None (Some [Samples.key "port" TInt])
                 None None)])
  = validate_expected [("mode", VStr "a")]
      ([] ++ [Descriptor "mode" TStr None (Some [Samples.key "port" TInt])
                None None]).
Proof.
  assert (Ht : param_type (Descriptor "mode" TStr None
                             (Some [Samples.key "port" TInt]) None None)
               <> TDict).
  { simpl. discriminate. }
  split; [exact Ht |].
  exact (nesting_ignored_on_non_dict_key [("mode", VStr "a")] []
           (Descriptor "mode" TStr None (Some [Samples.key "port" TInt])
              None None) [] Ht).
Defined.

(** *** The type test *)

Lemma ill_typed_detected (d : dict) (ks : list descriptor) (k : descriptor) :
  In k ks -> well_typed d k = false -> forallb (well_typed d) ks = false.
Proof.
  intros Hin Hk. apply not_true_is_false. intros Hall.
  rewrite forallb_forall in Hall. apply Hall in Hin. congruence.
Qed.

(** X15.  When every required name is in the mapping and the value under one
    of them does not pass [isinstance], [validate_expected] returns [False]
    with the record of the type test alone: no [possible_values] test and no
    nested or conditional list is run before all types are right. *)
Theorem validate_expected_types_before_values (d : dict)
  (ks : list descriptor) (k : descriptor) :
  forallb (present d) ks = true ->
  In k ks ->
  well_typed d k = false ->
  validate_expected d ks = (["incorrect expected parameter type"], Return false).
Proof.
  intros Hp Hin Hk. unfold validate_expected.
  now rewrite validate_expected_with_eq, Hp, (ill_typed_detected _ _ _ Hin Hk).
Qed.

Lemma validate_expected_types_before_values_witness :
  forallb (present [("mode", VStr "c"); ("port", VStr "80")])
    [Samples.mode_key; Samples.key "port" TInt] = true /\
  In (Samples.key "port" TInt) [Samples.mode_key; Samples.key "port" TInt] /\
  well_typed [("mode", VStr "c"); ("port", VStr "80")]
    (Samples.key "port" TInt) = false /\
  validate_expected [("mode", VStr "c"); ("port", VStr "80")]
    [Samples.mode_key; Samples.key "port" TInt]
  = (["incorrect expected parameter type"], Return false).
Proof.
  assert (Hin : In (Samples.key "port" TInt)
                   [Samples.mode_key; Samples.key "port" TInt]).
  { right. left. reflexivity. }
  split; [reflexivity | split; [exact Hin | split; [reflexivity |]]].
  exact (validate_expected_types_before_values
           [("mode", VStr "c"); ("port", VStr "80")]
           [Samples.mode_key; Samples.key "port" TInt]
           (Samples.key "port" TInt) eq_refl Hin eq_refl).
Defined.

(** *** The order of the items of the data mapping *)

Lemma In_keys_lookup {A : Type} (n : string) (a : list (string * A)) :
  In n (keys a) -> exists v, lookup n a = Some v.
Proof.
  induction a as [| [k x] a IH]; simpl; [easy |].
  intros H. destruct (String.eqb n k) eqn:E; [now exists x |].
  destruct H as [H | H]; [| now apply IH].
  subst. now rewrite String.eqb_refl in E.
Qed.

Lemma lookup_In {A : Type} (n : string) (v : A) (a : list (string * A)) :
  NoDup (keys a) -> (lookup n a = Some v <-> In (n, v) a).
Proof.
  induction a as [| [k x] a IH]; simpl; intros Hnd; [easy |].
  inversion Hnd as [| ? ? Hk Hnd']; subst.
  destruct (String.eqb n k) eqn:E.
  - apply String.eqb_eq in E. subst. split.
    + intros H. inversion H. now left.
    + intros [H | H]; [now inversion H |].
      exfalso. apply Hk. change k with (fst (k, v)). now apply in_map.
  - rewrite (IH Hnd'). split; [now right |].
    intros [H | H]; [| exact H].
    inversion H; subst. now rewrite String.eqb_refl in E.
Qed.

Lemma lookup_Permutation (d d' : dict) (n : string) :
  NoDup (keys d) -> Permutation d d' -> lookup n d = lookup n d'.
Proof.
  intros Hnd Hp.
  assert (Hnd' : NoDup (keys d')).
  { apply (Permutation_NoDup (l := keys d)); [| exact Hnd].
    now apply Permutation_map. }
  destruct (lookup n d) as [v |] eqn:E.
  - symmetry. apply (lookup_In _ _ _ Hnd'), (Permutation_in _ Hp).
    now apply (lookup_In _ _ _ Hnd).
  - destruct (lookup n d') as [v |] eqn:E'; [| reflexivity].
    apply (lookup_In _ _ _ Hnd'), (Permutation_in _ (Permutation_sym Hp)) in E'.
    apply (lookup_In _ _ _ Hnd) in E'. congruence.
Qed.

Lemma validate_optional_body_frame (d d' : dict) (k : descriptor) :
  lookup (param_name k) d = lookup (param_name k) d' ->
  validate_optional_body d k = validate_optional_body d' k.
Proof.
  intros H. rewrite !validate_optional_body_eq.
  unfold optional_body, contains, getitem. now rewrite H.
Qed.

Lemma validate_optional_frame (d d' : dict) (ks : list descriptor) :
  (forall n, lookup n d = lookup n d') ->
  validate_optional d ks = validate_optional d' ks.
Proof.
  intros H. induction ks as [| k ks IH]; [reflexivity |].
  now rewrite !validate_optional_cons, IH,
    (validate_optional_body_frame d d' k (H _)).
Qed.

Lemma all_known_frame (d d' : dict) (ks : list descriptor)
  (os : option (list descriptor)) :
  (forall n, lookup n d = lookup n d') ->
  all_known d ks os = all_known d' ks os.
Proof.
  intros H.
  assert (Hsub : forall a b : dict,
             (forall n, lookup n a = lookup n b) ->
             all_known a ks os = true -> all_known b ks os = true).
  { unfold all_known. intros a b Hab Ha.
    rewrite forallb_forall in Ha |- *. intros n Hn. apply Ha.
    destruct (In_keys_lookup _ _ Hn) as [v Hv].
    rewrite <- Hab in Hv. now apply lookup_Some_key with v. }
  destruct (all_known d ks os) eqn:E.
  - symmetry. now apply (Hsub d d').
  - destruct (all_known d' ks os) eqn:E'; [| reflexivity].
    rewrite (Hsub d' d (fun n => eq_sym (H n)) E') in E. discriminate E.
Qed.

Lemma validate_frame (d d' : dict) (ks : list descriptor)
  (os : option (list descriptor)) :
  (forall n, lookup n d = lookup n d') ->
  validate d ks os = validate d' ks os.
Proof.
  intros H. unfold validate. rewrite !validate_with_eq.
  fold (all_known d ks os). fold (all_known d' ks os).
  rewrite (all_known_frame d d' ks os H).
  rewrite (validate_expected_frame d d' ks (fun n _ => H n)).
  destruct os as [o |]; [| reflexivity].
  now rewrite (validate_optional_frame d d' o H).
Qed.

(** X16.  The three methods read the data mapping through [in] and
    subscripts only: two mappings that hold the same items in a different
    order get the same log and the same result from each of them. *)
Theorem item_order_is_irrelevant (d d' : dict) (ks : list descriptor)
  (os : option (list descriptor)) (o : list descriptor) :
  NoDup (keys d) ->
  Permutation d d' ->
  validate d ks os = validate d' ks os /\
  validate_expected d ks = validate_expected d' ks /\
  validate_optional d o = validate_optional d' o.
Proof.
  intros Hnd Hp.
  pose proof (fun n => lookup_Permutation d d' n Hnd Hp) as H.
  split; [now apply validate_frame | split].
  - apply validate_expected_frame. intros n _. apply H.
  - now apply validate_optional_frame.
Qed.

Lemma item_order_is_irrelevant_witness :
  NoDup (keys Samples.local_data) /\
  Permutation Samples.local_data
    [("info", VDict [("path", VStr "/tmp")]); ("kind", VStr "local")] /\
  validate Samples.local_data Samples.kind_info None
  = validate [("info", VDict [("path", VStr "/tmp")]); ("kind", VStr "local")]
      Samples.kind_info None.
Proof.
  assert (Hnd : NoDup (keys Samples.local_data)).
  { simpl. constructor.
    - simpl. intros [H | []]. discriminate H.
    - constructor; [intros [] | constructor]. }
  split; [exact Hnd | split; [apply perm_swap |]].
  exact (proj1 (item_order_is_irrelevant Samples.local_data
                  [("info", VDict [("path", VStr "/tmp")]); ("kind", VStr "local")]
                  Samples.kind_info None [] Hnd (perm_swap _ _ _))).
Defined.
